(** * Package initializer ([main.py]): shallow embedding and verification

    The script consists of one procedure, [create_package], and a command
    line entry point, [main].  The procedure is straight-line code over three
    kinds of effects: files written under the project directory, one HTTP
    request, and calls into the packaging toolchain.  It is embedded here as a
    computation in a state-and-exception monad whose state holds the file
    system and the chronological trace of effects; everything outside the
    script (the network, the toolchain, file permissions) is an explicit
    environment record.

    Modelling conventions.
    - A Python [str] is a [string]; each [ascii] stands for one code point in
      the range 0..255, and [lower], [strip], [splitlines] follow CPython on
      that range.
    - A file holds the text or bytes last stored in it; the file system is a
      finite map from path strings to contents, and a path names a file by
      its spelling: the statements below speak of paths as the script spells
      them, and say nothing of a second spelling of the same file.
    - Text is written as it is (the POSIX line separator); text read in text
      mode has its line endings translated ([universal_newlines]); a file
      that cannot be opened or decoded is a matter of the [Reader].
    - [os.path.join] is the POSIX one. *)

From Stdlib Require Import ZArith NArith Ascii String List Lia.
From stdpp Require Import base option list gmap strings.

Local Open Scope string_scope.
Local Open Scope list_scope.

(** ** Python strings *)

Module PyStr.

Definition code (c : ascii) : N := N_of_ascii c.

(** Upper-case code points with a lower-case partner: A-Z, and the Latin-1
    letters U+00C0..U+00DE except the multiplication sign U+00D7. *)
Definition is_upper (c : ascii) : bool :=
  let n := code c in
  ((65 <=? n) && (n <=? 90) || (192 <=? n) && (n <=? 222) && negb (n =? 215))%N.

Definition lower_char (c : ascii) : ascii :=
  if is_upper c then ascii_of_N (code c + 32) else c.

(** [str.lower()] *)
Fixpoint lower (s : string) : string :=
  match s with
  | EmptyString => EmptyString
  | String c s' => String (lower_char c) (lower s')
  end.

(** [str.isspace()] on one code point: TAB..CR, FS..US, space, NEL, NBSP. *)
Definition is_space (c : ascii) : bool :=
  let n := code c in
  ((9 <=? n) && (n <=? 13) || (28 <=? n) && (n <=? 31)
   || (n =? 32) || (n =? 133) || (n =? 160))%N.

(** Line boundaries of [str.splitlines()]: LF, VT, FF, CR, FS, GS, RS, NEL. *)
Definition is_linebreak (c : ascii) : bool :=
  let n := code c in
  ((10 <=? n) && (n <=? 13) || (28 <=? n) && (n <=? 30) || (n =? 133))%N.

Definition CR : ascii := ascii_of_N 13.
Definition LF : ascii := ascii_of_N 10.

Fixpoint lstrip (s : string) : string :=
  match s with
  | String c s' => if is_space c then lstrip s' else s
  | EmptyString => EmptyString
  end.

Fixpoint rstrip (s : string) : string :=
  match s with
  | EmptyString => EmptyString
  | String c s' =>
      match rstrip s' with
      | EmptyString => if is_space c then EmptyString else String c EmptyString
      | r => String c r
      end
  end.

(** [str.strip()] *)
Definition strip (s : string) : string := lstrip (rstrip s).

(** Put [c] in front of the first piece of a list of pieces. *)
Definition push_front (c : ascii) (pieces : list string) : list string :=
  match pieces with
  | [] => [String c EmptyString]
  | p :: ps => String c p :: ps
  end.

(** [str.splitlines()]: the empty string has no line, a final line break
    opens no further line, and CR LF is one boundary. *)
Fixpoint splitlines (s : string) : list string :=
  match s with
  | EmptyString => []
  | String c s' =>
      if is_linebreak c then
        match s' with
        | String d s'' =>
            if (Ascii.eqb c CR && Ascii.eqb d LF)%bool
            then EmptyString :: splitlines s''
            else EmptyString :: splitlines s'
        | EmptyString => [EmptyString]
        end
      else push_front c (splitlines s')
  end.

(** [str.split(sep)] for a one-character separator. *)
Fixpoint split (sep : ascii) (s : string) : list string :=
  match s with
  | EmptyString => [EmptyString]
  | String c s' =>
      if Ascii.eqb c sep then EmptyString :: split sep s'
      else push_front c (split sep s')
  end.

Definition startswith (c : ascii) (s : string) : bool :=
  match s with
  | String d _ => Ascii.eqb d c
  | EmptyString => false
  end.

Fixpoint endswith (c : ascii) (s : string) : bool :=
  match s with
  | EmptyString => false
  | String d EmptyString => Ascii.eqb d c
  | String _ s' => endswith c s'
  end.

Definition is_empty (s : string) : bool :=
  match s with EmptyString => true | _ => false end.

Fixpoint contains (c : ascii) (s : string) : bool :=
  match s with
  | EmptyString => false
  | String d s' => Ascii.eqb d c || contains c s'
  end.

End PyStr.

(** [os.path.join(a, b)] of [posixpath]. *)
Definition path_join (a b : string) : string :=
  if PyStr.startswith "/" b then b
  else if PyStr.is_empty a || PyStr.endswith "/" a then a +:+ b
  else a +:+ "/" +:+ b.

(** ** Exceptions *)

(** The exception classes that the handlers of the script tell apart.
    [OSError] stands for itself and its subclasses ([FileNotFoundError],
    [PermissionError], [shutil.SameFileError]); [ImportError] likewise covers
    [ModuleNotFoundError].  [SystemExit] and [KeyboardInterrupt] derive from
    [BaseException] only. *)
Inductive exc_class : Type :=
  | ValueError
  | IndexError
  | TypeError
  | OSError
  | ImportError
  | OtherException (name : string)
  | SystemExit
  | KeyboardInterrupt.

Record exn : Type := Exn { exc_cls : exc_class; exc_msg : string }.

(** [isinstance(e, Exception)] *)
Definition isinstance_Exception (e : exn) : bool :=
  match exc_cls e with
  | SystemExit | KeyboardInterrupt => false
  | _ => true
  end.

(** [isinstance(e, ImportError)] *)
Definition isinstance_ImportError (e : exn) : bool :=
  match exc_cls e with
  | ImportError => true
  | _ => false
  end.

Inductive result (A : Type) : Type :=
  | Ok (a : A)
  | Raise (e : exn).
Arguments Ok {A} a.
Arguments Raise {A} e.

(** ** Effects *)

Inductive event : Type :=
  | EOpenW (path : string)
  | EWrite (path data : string)
  | EClose (path : string)
  | ECopyFile (src dst : string)
  | EHttpGet (url : string)
  | EImportPip
  | EPipMain (args : list string)
  | ESystem (cmd : string)
  | EFindPackages (where_ : string)
  | ESetup (name : string) (packages : list string)
  | ECall (callee : string) (posargs : list (option string))
  | EPrint (msg : string).

Record response : Type := Response { status_code : Z; text : string }.

(** Everything the script does not control: whether a path can be opened
    for writing, the answer of [requests.get], and what the toolchain calls
    [import pip], [pip.main], [os.system], [find_packages] and [setup] return
    or raise. *)
Record Env : Type := {
  can_open_w : string -> bool;
  http_get : string -> result response;
  import_pip : result unit;
  pip_main : list string -> result Z;
  os_system : string -> result Z;
  find_packages : string -> result (list string);
  setup : string -> list string -> result unit
}.

(** The files on disk, by path as spelled, and the effects so far, oldest
    first. *)
Record State : Type := St { fs : gmap string string; trace : list event }.

Definition M (A : Type) : Type := State -> State * result A.

Definition ret {A} (a : A) : M A := fun st => (st, Ok a).

Definition raise {A} (c : exc_class) (msg : string) : M A :=
  fun st => (st, Raise (Exn c msg)).

Definition bind {A B} (m : M A) (k : A -> M B) : M B :=
  fun st =>
    match m st with
    | (st', Ok a) => k a st'
    | (st', Raise e) => (st', Raise e)
    end.

Declare Scope py_scope.
Delimit Scope py_scope with py.
Notation "x <- m ;; k" := (bind m (fun x => k))
  (at level 100, m at next level, right associativity) : py_scope.
Notation "m ;; k" := (bind m (fun _ => k))
  (at level 100, right associativity) : py_scope.
Local Open Scope py_scope.

Definition emit (e : event) : M unit :=
  fun st => (St (fs st) (trace st ++ [e]), Ok tt).

(** Lift the answer of the environment into the computation. *)
Definition lift {A} (r : result A) : M A := fun st => (st, r).

(** [try: body  except <class> as e: handler e] *)
Definition try_except {A} (body : M A) (catches : exn -> bool)
    (handler : exn -> M A) : M A :=
  fun st =>
    match body st with
    | (st', Ok a) => (st', Ok a)
    | (st', Raise e) => if catches e then handler e st' else (st', Raise e)
    end.

(** [f.write(data)] on a file opened at [path]. *)
Definition file_write (path data : string) : M unit :=
  fun st =>
    (St (<[path := default "" (fs st !! path) +:+ data]> (fs st))
        (trace st ++ [EWrite path data]), Ok tt).

(** [with open(path, "w") as f: body]: the file is created or truncated when
    it is opened, and it is closed however the body ends. *)
Definition with_open_w {A} (env : Env) (path : string) (body : M A) : M A :=
  fun st =>
    if can_open_w env path then
      match body (St (<[path := ""]> (fs st)) (trace st ++ [EOpenW path])) with
      | (st', r) => (St (fs st') (trace st' ++ [EClose path]), r)
      end
    else (st, Raise (Exn OSError path)).

(** [shutil.copyfile(src, dst)]; source and target are compared as
    spelled. *)
Definition copyfile (env : Env) (src dst : string) : M unit :=
  fun st =>
    if String.eqb src dst then (st, Raise (Exn OSError "SameFileError"))
    else
      match fs st !! src with
      | None => (st, Raise (Exn OSError src))
      | Some bytes =>
          if can_open_w env dst then
            (St (<[dst := bytes]> (fs st)) (trace st ++ [ECopyFile src dst]), Ok tt)
          else (st, Raise (Exn OSError dst))
      end.

Definition print (msg : string) : M unit := emit (EPrint msg).

(** [l[i]] *)
Definition index {A} (l : list A) (i : nat) : M A :=
  match l !! i with
  | Some a => ret a
  | None => raise IndexError "list index out of range"
  end.

(** ** The script *)

Definition LICENSE_TEMPLATES : gmap string string :=
  <["mit" := "https://raw.githubusercontent.com/OpenSourceInitiative/licenses/master/MIT"]>
  (<["apache-2.0" := "https://raw.githubusercontent.com/apache/licenses/master/LICENSE-2.0"]>
  (<["gpl-3.0" := "https://raw.githubusercontent.com/tldr-pages/tldr/master/licenses/gpl-3.0.md"]>
   ∅)).

(** The text of the synthesized README:
    [f"# {toml_content.splitlines()[0].split('=')[1].strip()}"]. *)
Definition readme_title (toml_content : string) : M string :=
  first_line <- index (PyStr.splitlines toml_content) 0 ;;
  token <- index (PyStr.split "=" first_line) 1 ;;
  ret ("# " +:+ PyStr.strip token).

Definition create_package (env : Env) (project_dir toml_content : string)
    (license_type readme_path : option string) : M unit :=
  (* Create pyproject.toml file *)
  with_open_w env (path_join project_dir "pyproject.toml")
    (file_write (path_join project_dir "pyproject.toml") toml_content) ;;
  (* Create LICENSE file *)
  match license_type with
  | Some (String _ _ as license_type) =>
      match LICENSE_TEMPLATES !! PyStr.lower license_type with
      | Some (String _ _ as license_url) =>
          emit (EHttpGet license_url) ;;
          response <- lift (http_get env license_url) ;;
          if negb (status_code response =? 200)%Z then
            raise ValueError ("Failed to fetch license template from " +:+ license_url)
          else
            with_open_w env (path_join project_dir "LICENSE")
              (file_write (path_join project_dir "LICENSE") (text response))
      | _ => raise ValueError ("Invalid license type: " +:+ license_type)
      end
  | _ => ret tt
  end ;;
  (* Create README.md file *)
  let readme_file := path_join project_dir "README.md" in
  match readme_path with
  | Some (String _ _ as readme_path) => copyfile env readme_path readme_file
  | _ =>
      with_open_w env readme_file
        (content <- readme_title toml_content ;; file_write readme_file content)
  end ;;
  (* Ensure pip and setuptools are up-to-date (optional) *)
  try_except
    (emit EImportPip ;;
     lift (import_pip env) ;;
     emit (EPipMain ["install"; "-U"; "pip"; "setuptools"]) ;;
     lift (pip_main env ["install"; "-U"; "pip"; "setuptools"]) ;;
     ret tt)
    isinstance_ImportError
    (fun _ => print "Warning: pip or setuptools is not installed. Package creation might fail.") ;;
  (* Generate distribution files (optional) *)
  try_except
    (emit (ESystem "py -m pip install --upgrade build") ;;
     lift (os_system env "py -m pip install --upgrade build") ;;
     emit (EFindPackages project_dir) ;;
     found <- lift (find_packages env project_dir) ;;
     name <- index found 0 ;;
     emit (EFindPackages project_dir) ;;
     packages <- lift (find_packages env project_dir) ;;
     emit (ESetup name packages) ;;
     lift (setup env name packages))
    isinstance_Exception
    (fun e => print ("Error generating distribution files: " +:+ exc_msg e)) ;;
  print ("Package created successfully in: " +:+ project_dir).

(** The namespace returned by [parser.parse_args()]. *)
Record Namespace : Type := {
  args_project_dir : string;
  args_toml : string;
  args_license : option string;
  args_readme : option string
}.

(** A call of [create_package] with the positional arguments [posargs].
    The function has four required positional parameters and no defaults, so
    a call with two arguments is rejected before the body runs.  With four
    arguments the body runs; it takes the first two for strings. *)
Definition call_create_package (env : Env) (posargs : list (option string)) : M unit :=
  emit (ECall "create_package" posargs) ;;
  match posargs with
  | [project_dir; toml_content; license_type; readme_path] =>
      match project_dir, toml_content with
      | Some project_dir, Some toml_content =>
          create_package env project_dir toml_content license_type readme_path
      | _, _ => raise TypeError "expected str, bytes or os.PathLike object, not NoneType"
      end
  | [_; _] =>
      raise TypeError
        "create_package() missing 2 required positional arguments: 'license_type' and 'readme_path'"
  | _ => raise TypeError "create_package() called with a wrong number of positional arguments"
  end.

(** What the entry point cannot control when it reads the manifest file:
    [read_failure path content] is the exception with which opening the file
    at [path], or decoding its [content], fails, if it does. *)
Record Reader : Type := { read_failure : string -> string -> option exn }.

(** Universal newlines of a text-mode read: CR LF and a lone CR both come
    out as LF. *)
Fixpoint universal_newlines (s : string) : string :=
  match s with
  | EmptyString => EmptyString
  | String c s' =>
      if Ascii.eqb c PyStr.CR then
        match s' with
        | String d s'' =>
            if Ascii.eqb d PyStr.LF
            then String PyStr.LF (universal_newlines s'')
            else String PyStr.LF (universal_newlines s')
        | EmptyString => String PyStr.LF EmptyString
        end
      else String c (universal_newlines s')
  end.

(** [os.path.isfile(path)] *)
Definition isfile (path : string) : M bool :=
  fun st => (st, Ok (bool_decide (is_Some (fs st !! path)))).

(** [with open(path, "r") as f: f.read()] *)
Definition read_text (rd : Reader) (path : string) : M string :=
  fun st =>
    match fs st !! path with
    | None => (st, Raise (Exn OSError path))
    | Some content =>
        match read_failure rd path content with
        | Some e => (st, Raise e)
        | None => (st, Ok (universal_newlines content))
        end
    end.

Definition main (env : Env) (rd : Reader) (args : Namespace) : M unit :=
  (* Handle pyproject.toml content from file or argument *)
  is_file <- isfile (args_toml args) ;;
  toml_content <-
    (if is_file : bool then read_text rd (args_toml args) else ret (args_toml args)) ;;
  call_create_package env [Some (args_project_dir args); Some toml_content].

(** ** Vocabulary of the specification *)

(** The three files of a project directory. *)
Definition manifest_file (d : string) : string := path_join d "pyproject.toml".
Definition license_file (d : string) : string := path_join d "LICENSE".
Definition readme_file (d : string) : string := path_join d "README.md".

(** One run of [create_package] from the file system [fs0]. *)
Definition run (env : Env) (d toml : string) (lt rp : option string)
    (fs0 : gmap string string) : State * result unit :=
  create_package env d toml lt rp (St fs0 []).

(** An optional argument that an [if] of the script takes for false. *)
Definition falsy (o : option string) : Prop := o = None \/ o = Some "".

(** The manifest text that a [--toml] argument stands for: the argument
    itself when it names no file, and otherwise the text of the file it names,
    with its line endings read as LF. *)
Inductive resolved_manifest (fs0 : gmap string string) (arg : string) : string -> Prop :=
  | resolved_literal :
      fs0 !! arg = None -> resolved_manifest fs0 arg arg
  | resolved_file content :
      fs0 !! arg = Some content ->
      resolved_manifest fs0 arg (universal_newlines content).

(** The path that a file event opens, writes or copies to. *)
Definition target_path (e : event) : option string :=
  match e with
  | EOpenW p | EWrite p _ | EClose p | ECopyFile _ p => Some p
  | _ => None
  end.

(** Equality of two keys up to letter case. *)
Definition equal_nocase (a b : string) : Prop := PyStr.lower a = PyStr.lower b.

Definition supported_keys : list string := ["mit"; "apache-2.0"; "gpl-3.0"].

(** The part of [s] in front of its first [c]; all of [s] when it has none. *)
Fixpoint before (c : ascii) (s : string) : string :=
  match s with
  | EmptyString => EmptyString
  | String x s' => if Ascii.eqb x c then EmptyString else String x (before c s')
  end.

(** *** The five commented blocks of [create_package]

    The same code as in [create_package], one definition for each block;
    [create_package_steps] below shows that their sequence is the procedure
    itself. *)

Definition write_manifest (env : Env) (d toml : string) : M unit :=
  with_open_w env (path_join d "pyproject.toml")
    (file_write (path_join d "pyproject.toml") toml).

Definition write_license (env : Env) (d : string) (lt : option string) : M unit :=
  match lt with
  | Some (String _ _ as license_type) =>
      match LICENSE_TEMPLATES !! PyStr.lower license_type with
      | Some (String _ _ as license_url) =>
          emit (EHttpGet license_url) ;;
          response <- lift (http_get env license_url) ;;
          if negb (status_code response =? 200)%Z then
            raise ValueError ("Failed to fetch license template from " +:+ license_url)
          else
            with_open_w env (path_join d "LICENSE")
              (file_write (path_join d "LICENSE") (text response))
      | _ => raise ValueError ("Invalid license type: " +:+ license_type)
      end
  | _ => ret tt
  end.

Definition write_readme (env : Env) (d toml : string) (rp : option string) : M unit :=
  let readme_file := path_join d "README.md" in
  match rp with
  | Some (String _ _ as readme_path) => copyfile env readme_path readme_file
  | _ =>
      with_open_w env readme_file
        (content <- readme_title toml ;; file_write readme_file content)
  end.

(** The constants of the two toolchain blocks. *)
Definition pip_args : list string := ["install"; "-U"; "pip"; "setuptools"].
Definition pip_warning : string :=
  "Warning: pip or setuptools is not installed. Package creation might fail.".
Definition build_cmd : string := "py -m pip install --upgrade build".

Definition upgrade_toolchain (env : Env) : M unit :=
  try_except
    (emit EImportPip ;;
     lift (import_pip env) ;;
     emit (EPipMain pip_args) ;;
     lift (pip_main env pip_args) ;;
     ret tt)
    isinstance_ImportError
    (fun _ => print pip_warning).

Definition generate_distribution (env : Env) (d : string) : M unit :=
  try_except
    (emit (ESystem build_cmd) ;;
     lift (os_system env build_cmd) ;;
     emit (EFindPackages d) ;;
     found <- lift (find_packages env d) ;;
     name <- index found 0 ;;
     emit (EFindPackages d) ;;
     packages <- lift (find_packages env d) ;;
     emit (ESetup name packages) ;;
     lift (setup env name packages))
    isinstance_Exception
    (fun e => print ("Error generating distribution files: " +:+ exc_msg e)).

(** The three blocks that write files, and the two that call the toolchain
    followed by the final message. *)
Definition manifest_and_license (env : Env) (d toml : string) (lt : option string) : M unit :=
  write_manifest env d toml ;; write_license env d lt.

Definition materialize (env : Env) (d toml : string) (lt rp : option string) : M unit :=
  manifest_and_license env d toml lt ;; write_readme env d toml rp.

Definition best_effort (env : Env) (d : string) : M unit :=
  upgrade_toolchain env ;;
  generate_distribution env d ;;
  print ("Package created successfully in: " +:+ d).

(** *** Classes of events *)

Definition is_file_event (e : event) : bool :=
  match e with
  | EOpenW _ | EWrite _ _ | EClose _ | ECopyFile _ _ => true
  | _ => false
  end.

Definition is_toolchain_event (e : event) : bool :=
  match e with
  | EImportPip | EPipMain _ | ESystem _ | EFindPackages _ | ESetup _ _ => true
  | _ => false
  end.

Definition is_print_event (e : event) : bool :=
  match e with EPrint _ => true | _ => false end.

Definition is_best_effort_event (e : event) : bool :=
  is_toolchain_event e || is_print_event e.

(** URLs requested, in order. *)
Definition http_gets (tr : list event) : list string :=
  omap (fun e => match e with EHttpGet url => Some url | _ => None end) tr.

(** Paths of the files created or replaced, in order: one entry for each
    [open(path, "w")] and for each copy destination. *)
Definition created (tr : list event) : list string :=
  omap (fun e => match e with
                 | EOpenW p | ECopyFile _ p => Some p
                 | _ => None
                 end) tr.

(** Messages printed, in order. *)
Definition printed (tr : list event) : list string :=
  omap (fun e => match e with EPrint msg => Some msg | _ => None end) tr.


(** *** Failures of the two best-effort blocks *)

(** The exception that leaves the body of each [try], if any. *)
Definition upgrade_failure (env : Env) : option exn :=
  match import_pip env with
  | Raise e => Some e
  | Ok _ => match pip_main env pip_args with Raise e => Some e | Ok _ => None end
  end.

Definition build_failure (env : Env) (d : string) : option exn :=
  match os_system env build_cmd with
  | Raise e => Some e
  | Ok _ =>
      match find_packages env d with
      | Raise e => Some e
      | Ok [] => Some (Exn IndexError "list index out of range")
      | Ok (name :: rest) =>
          match setup env name (name :: rest) with
          | Raise e => Some e
          | Ok _ => None
          end
      end
  end.

Definition success_message (d : string) : string :=
  "Package created successfully in: " +:+ d.

Definition build_error_message (e : exn) : string :=
  "Error generating distribution files: " +:+ exc_msg e.


(** *** Sample environments *)

Definition env_ok : Env := {|
  can_open_w := fun _ => true;
  http_get := fun _ => Ok (Response 200 "MIT License");
  import_pip := Ok tt;
  pip_main := fun _ => Ok 0%Z;
  os_system := fun _ => Ok 0%Z;
  find_packages := fun _ => Ok ["pkg"];
  setup := fun _ _ => Ok tt
|}.

(** The license server answers 404. *)
Definition env_http_404 : Env := {|
  can_open_w := fun _ => true;
  http_get := fun _ => Ok (Response 404 "Not Found");
  import_pip := Ok tt;
  pip_main := fun _ => Ok 0%Z;
  os_system := fun _ => Ok 0%Z;
  find_packages := fun _ => Ok ["pkg"];
  setup := fun _ _ => Ok tt
|}.

(** [pip.main] raises an exception that is not an [ImportError]. *)
Definition env_pip_raises : Env := {|
  can_open_w := fun _ => true;
  http_get := fun _ => Ok (Response 200 "MIT License");
  import_pip := Ok tt;
  pip_main := fun _ => Raise (Exn (OtherException "RuntimeError") "pip failed");
  os_system := fun _ => Ok 0%Z;
  find_packages := fun _ => Ok ["pkg"];
  setup := fun _ _ => Ok tt
|}.

(** [setup] leaves through [SystemExit], as [distutils] does on a usage
    error. *)
Definition env_setup_exits : Env := {|
  can_open_w := fun _ => true;
  http_get := fun _ => Ok (Response 200 "MIT License");
  import_pip := Ok tt;
  pip_main := fun _ => Ok 0%Z;
  os_system := fun _ => Ok 0%Z;
  find_packages := fun _ => Ok ["pkg"];
  setup := fun _ _ => Raise (Exn SystemExit "error: no commands supplied")
|}.

(** pip is missing and no package is found: both best-effort blocks fail in
    the way their handlers expect. *)
Definition env_no_toolchain : Env := {|
  can_open_w := fun _ => true;
  http_get := fun _ => Ok (Response 200 "MIT License");
  import_pip := Raise (Exn ImportError "No module named 'pip'");
  pip_main := fun _ => Ok 0%Z;
  os_system := fun _ => Ok 1%Z;
  find_packages := fun _ => Ok [];
  setup := fun _ _ => Ok tt
|}.

(** *** Vocabulary of the further properties *)

(** Some character of [s] is a line boundary. *)
Fixpoint has_linebreak (s : string) : bool :=
  match s with
  | EmptyString => false
  | String c s' => PyStr.is_linebreak c || has_linebreak s'
  end.

(** The environment [env] with other exit codes: whenever [pip.main] or
    [os.system] returns, it returns [pip_code] or [sys_code] instead. *)
Definition with_exit_codes (env : Env) (pip_code sys_code : Z) : Env := {|
  can_open_w := can_open_w env;
  http_get := http_get env;
  import_pip := import_pip env;
  pip_main := fun args =>
    match pip_main env args with Ok _ => Ok pip_code | Raise e => Raise e end;
  os_system := fun cmd =>
    match os_system env cmd with Ok _ => Ok sys_code | Raise e => Raise e end;
  find_packages := find_packages env;
  setup := setup env
|}.

(** What the build block and the final line print, given how the build
    ends: the error message and the success message when the failure is
    caught, nothing when it is not. *)
Definition build_output (env : Env) (d : string) : list string :=
  match build_failure env d with
  | Some e =>
      if isinstance_Exception e then [build_error_message e; success_message d] else []
  | None => [success_message d]
  end.

(** What the two best-effort blocks and the final line print. *)
Definition expected_output (env : Env) (d : string) : list string :=
  match upgrade_failure env with
  | Some e => if isinstance_ImportError e then pip_warning :: build_output env d else []
  | None => build_output env d
  end.

(** No network: [requests.get] raises. *)
Definition env_offline : Env := {|
  can_open_w := fun _ => true;
  http_get := fun _ => Raise (Exn (OtherException "ConnectionError") "network unreachable");
  import_pip := Ok tt;
  pip_main := fun _ => Ok 0%Z;
  os_system := fun _ => Ok 0%Z;
  find_packages := fun _ => Ok ["pkg"];
  setup := fun _ _ => Ok tt
|}.

(** The project directory cannot be written. *)
Definition env_read_only : Env := {|
  can_open_w := fun _ => false;
  http_get := fun _ => Ok (Response 200 "MIT License");
  import_pip := Ok tt;
  pip_main := fun _ => Ok 0%Z;
  os_system := fun _ => Ok 0%Z;
  find_packages := fun _ => Ok ["pkg"];
  setup := fun _ _ => Ok tt
|}.

(** Every file can be read. *)
Definition reader_ok : Reader := {| read_failure := fun _ _ => None |}.

(** No file can be read. *)
Definition reader_denied : Reader := {|
  read_failure := fun path _ => Some (Exn OSError path)
|}.

(** * Verification *)

(** ** The string functions on examples *)

Example splitlines_ex :
  PyStr.splitlines ("a" +:+ String PyStr.CR (String PyStr.LF "b") +:+ String PyStr.LF "")
  = ["a"; "b"].
Proof. reflexivity. Qed.

Example split_ex : PyStr.split "=" "name = demo=x" = ["name "; " demo"; "x"].
Proof. reflexivity. Qed.

Example strip_ex : PyStr.strip "  demo pkg   " = "demo pkg".
Proof. reflexivity. Qed.

Example lower_ex : PyStr.lower "Apache-2.0" = "apache-2.0".
Proof. reflexivity. Qed.

Example join_ex : path_join "proj" "LICENSE" = "proj/LICENSE" /\ path_join "proj/" "LICENSE" = "proj/LICENSE".
Proof. split; reflexivity. Qed.

Lemma append_cons c a b : String c a +:+ b = String c (a +:+ b).
Proof. reflexivity. Qed.

Lemma append_inj_l p a b : p +:+ a = p +:+ b -> a = b.
Proof. induction p as [|c p IH]; [done|]. rewrite !append_cons. intros [= H]. auto. Qed.

Lemma path_join_rel d b :
  PyStr.startswith "/" b = false ->
  exists p, forall b', PyStr.startswith "/" b' = false -> path_join d b' = p +:+ b'.
Proof.
  intros _. unfold path_join.
  destruct (PyStr.is_empty d || PyStr.endswith "/" d) eqn:E.
  - exists d. intros b' ->. done.
  - exists (d +:+ "/"). intros b' ->. 
    clear. induction d as [|c d IH]; [done|]. rewrite !append_cons. by f_equal.
Qed.

Lemma manifest_ne_license d : manifest_file d <> license_file d.
Proof.
  destruct (path_join_rel d "x" eq_refl) as [p Hp].
  unfold manifest_file, license_file. rewrite !Hp by reflexivity.
  intros H%append_inj_l. discriminate.
Qed.
Lemma manifest_ne_readme d : manifest_file d <> readme_file d.
Proof.
  destruct (path_join_rel d "x" eq_refl) as [p Hp].
  unfold manifest_file, readme_file. rewrite !Hp by reflexivity.
  intros H%append_inj_l. discriminate.
Qed.
Lemma license_ne_readme d : license_file d <> readme_file d.
Proof.
  destruct (path_join_rel d "x" eq_refl) as [p Hp].
  unfold license_file, readme_file. rewrite !Hp by reflexivity.
  intros H%append_inj_l. discriminate.
Qed.

Lemma table_urls_nonempty k url :
  LICENSE_TEMPLATES !! k = Some url -> exists c u, url = String c u.
Proof.
  unfold LICENSE_TEMPLATES.
  rewrite !lookup_insert_Some, lookup_empty.
  intros [[_ <-]|[_ [[_ <-]|[_ [[_ <-]|[_ ?]]]]]]; by eauto.
Qed.



Lemma create_package_steps env d toml lt rp :
  create_package env d toml lt rp =
  (write_manifest env d toml ;;
   write_license env d lt ;;
   write_readme env d toml rp ;;
   upgrade_toolchain env ;;
   generate_distribution env d ;;
   print ("Package created successfully in: " +:+ d)).
Proof. reflexivity. Qed.

Lemma write_truncated (m : gmap string string) p data :
  <[p := default "" (<[p := ""]> m !! p) +:+ data]> (<[p := ""]> m) = <[p := data]> m.
Proof. rewrite lookup_insert_eq. simpl. by rewrite insert_insert_eq. Qed.

Lemma write_manifest_eq env d toml st :
  write_manifest env d toml st =
  if can_open_w env (manifest_file d) then
    (St (<[manifest_file d := toml]> (fs st))
        (trace st ++ [EOpenW (manifest_file d); EWrite (manifest_file d) toml;
                      EClose (manifest_file d)]), Ok tt)
  else (st, Raise (Exn OSError (manifest_file d))).
Proof.
  unfold write_manifest, with_open_w, file_write. fold (manifest_file d).
  destruct (can_open_w env (manifest_file d)); [|done].
  cbn [fs trace]. by rewrite write_truncated, <- !app_assoc.
Qed.

Lemma write_license_eq env d lt st :
  write_license env d lt st =
  match lt with
  | Some (String _ _ as k) =>
      match LICENSE_TEMPLATES !! PyStr.lower k with
      | Some url =>
          let st1 := St (fs st) (trace st ++ [EHttpGet url]) in
          match http_get env url with
          | Ok r =>
              if (status_code r =? 200)%Z then
                if can_open_w env (license_file d) then
                  (St (<[license_file d := text r]> (fs st))
                      (trace st ++ [EHttpGet url; EOpenW (license_file d);
                                    EWrite (license_file d) (text r);
                                    EClose (license_file d)]), Ok tt)
                else (st1, Raise (Exn OSError (license_file d)))
              else (st1, Raise (Exn ValueError
                      ("Failed to fetch license template from " +:+ url)))
          | Raise e => (st1, Raise e)
          end
      | None => (st, Raise (Exn ValueError ("Invalid license type: " +:+ k)))
      end
  | _ => (st, Ok tt)
  end.
Proof.
  unfold write_license. destruct lt as [[|c k]|]; [done| |done].
  destruct (LICENSE_TEMPLATES !! PyStr.lower (String c k)) as [url|] eqn:E; [|done].
  destruct (table_urls_nonempty _ _ E) as (c' & u & ->).
  unfold bind, emit, lift, raise, with_open_w, file_write. fold (license_file d).
  cbn [fs trace].
  destruct (http_get env _) as [r|e]; [|done].
  destruct (status_code r =? 200)%Z; cbn [negb]; [|done].
  destruct (can_open_w env (license_file d)); [|done].
  cbn [fs trace]. by rewrite write_truncated, <- !app_assoc.
Qed.

Lemma write_readme_eq env d toml rp st :
  write_readme env d toml rp st =
  match rp with
  | Some (String _ _ as src) => copyfile env src (readme_file d) st
  | _ =>
      if can_open_w env (readme_file d) then
        match PyStr.splitlines toml with
        | line :: _ =>
            match PyStr.split "=" line with
            | _ :: token :: _ =>
                (St (<[readme_file d := "# " +:+ PyStr.strip token]> (fs st))
                    (trace st ++ [EOpenW (readme_file d);
                                  EWrite (readme_file d) ("# " +:+ PyStr.strip token);
                                  EClose (readme_file d)]), Ok tt)
            | _ =>
                (St (<[readme_file d := ""]> (fs st))
                    (trace st ++ [EOpenW (readme_file d); EClose (readme_file d)]),
                 Raise (Exn IndexError "list index out of range"))
            end
        | [] =>
            (St (<[readme_file d := ""]> (fs st))
                (trace st ++ [EOpenW (readme_file d); EClose (readme_file d)]),
             Raise (Exn IndexError "list index out of range"))
        end
      else (st, Raise (Exn OSError (readme_file d)))
  end.
Proof.
  assert (Hsynth :
    with_open_w env (readme_file d)
      (content <- readme_title toml ;; file_write (readme_file d) content) st =
    if can_open_w env (readme_file d) then
      match PyStr.splitlines toml with
      | line :: _ =>
          match PyStr.split "=" line with
          | _ :: token :: _ =>
              (St (<[readme_file d := "# " +:+ PyStr.strip token]> (fs st))
                  (trace st ++ [EOpenW (readme_file d);
                                EWrite (readme_file d) ("# " +:+ PyStr.strip token);
                                EClose (readme_file d)]), Ok tt)
          | _ =>
              (St (<[readme_file d := ""]> (fs st))
                  (trace st ++ [EOpenW (readme_file d); EClose (readme_file d)]),
               Raise (Exn IndexError "list index out of range"))
          end
      | [] =>
          (St (<[readme_file d := ""]> (fs st))
              (trace st ++ [EOpenW (readme_file d); EClose (readme_file d)]),
           Raise (Exn IndexError "list index out of range"))
      end
    else (st, Raise (Exn OSError (readme_file d)))).
  { unfold with_open_w, readme_title, index, bind, file_write, ret, raise.
    destruct (can_open_w env (readme_file d)); [|done].
    destruct (PyStr.splitlines toml) as [|line ?]; cbn [lookup list_lookup fs trace].
    { by rewrite <- !app_assoc. }
    destruct (PyStr.split "=" line) as [|? [|token ?]]; cbn [lookup list_lookup fs trace];
      rewrite <- ?app_assoc; try done.
    by rewrite write_truncated. }
  unfold write_readme. fold (readme_file d).
  destruct rp as [[|c src]|]; done.
Qed.

Lemma bind_assoc {A B C} (m : M A) (f : A -> M B) (g : B -> M C) st :
  bind (bind m f) g st = bind m (fun x => bind (f x) g) st.
Proof. unfold bind. destruct (m st) as [st' [a|e]]; done. Qed.

Lemma create_package_split env d toml lt rp st :
  create_package env d toml lt rp st =
  match materialize env d toml lt rp st with
  | (st1, Ok _) => best_effort env d st1
  | (st1, Raise e) => (st1, Raise e)
  end.
Proof.
  change (create_package env d toml lt rp st =
          bind (materialize env d toml lt rp) (fun _ => best_effort env d) st).
  rewrite create_package_steps. unfold materialize, manifest_and_license, best_effort.
  by rewrite !bind_assoc.
Qed.


Lemma upgrade_toolchain_eq env st :
  exists evs, Forall (fun e => is_toolchain_event e = true) evs /\
  upgrade_toolchain env st =
  match upgrade_failure env with
  | None => (St (fs st) (trace st ++ evs), Ok tt)
  | Some e =>
      if isinstance_ImportError e
      then (St (fs st) (trace st ++ evs ++ [EPrint pip_warning]), Ok tt)
      else (St (fs st) (trace st ++ evs), Raise e)
  end.
Proof.
  unfold upgrade_toolchain, upgrade_failure, try_except, bind, print, emit, lift, ret.
  cbn [fs trace].
  destruct (import_pip env) as [[]|e].
  - exists [EImportPip; EPipMain pip_args]. split; [by repeat constructor|].
    destruct (pip_main env pip_args) as [z|e]; cbn [fs trace]; rewrite <- ?app_assoc; [done|].
    destruct (isinstance_ImportError e); cbn [fs trace]; by rewrite <- ?app_assoc.
  - exists [EImportPip]. split; [by repeat constructor|].
    destruct (isinstance_ImportError e); cbn [fs trace]; by rewrite <- ?app_assoc.
Qed.

Lemma generate_distribution_eq env d st :
  exists evs, Forall (fun e => is_toolchain_event e = true) evs /\
  generate_distribution env d st =
  match build_failure env d with
  | None => (St (fs st) (trace st ++ evs), Ok tt)
  | Some e =>
      if isinstance_Exception e
      then (St (fs st) (trace st ++ evs ++ [EPrint (build_error_message e)]), Ok tt)
      else (St (fs st) (trace st ++ evs), Raise e)
  end.
Proof.
  unfold generate_distribution, build_failure, build_error_message, try_except, bind,
    print, emit, lift, index, ret, raise.
  cbn [fs trace].
  destruct (os_system env build_cmd) as [z|e].
  - destruct (find_packages env d) as [[|name rest]|e]; cbn [lookup list_lookup fs trace].
    + exists [ESystem build_cmd; EFindPackages d]. split; [by repeat constructor|].
      cbn [isinstance_Exception exc_cls fs trace]. by rewrite <- ?app_assoc.
    + exists [ESystem build_cmd; EFindPackages d; EFindPackages d; ESetup name (name :: rest)].
      split; [by repeat constructor|].
      destruct (setup env name (name :: rest)) as [[]|e]; cbn [fs trace];
        rewrite <- ?app_assoc; [done|].
      destruct (isinstance_Exception e); cbn [fs trace]; by rewrite <- ?app_assoc.
    + exists [ESystem build_cmd; EFindPackages d]. split; [by repeat constructor|].
      destruct (isinstance_Exception e); cbn [fs trace]; by rewrite <- ?app_assoc.
  - exists [ESystem build_cmd]. split; [by repeat constructor|].
    destruct (isinstance_Exception e); cbn [fs trace]; by rewrite <- ?app_assoc.
Qed.


Lemma best_effort_frame env d st :
  exists evs r,
    best_effort env d st = (St (fs st) (trace st ++ evs), r) /\
    Forall (fun e => is_best_effort_event e = true) evs.
Proof.
  unfold best_effort, bind.
  destruct (upgrade_toolchain_eq env st) as (ev1 & F1 & ->).
  assert (F1' : Forall (fun e => is_best_effort_event e = true) ev1).
  { eapply Forall_impl; [done|]. intros e He. unfold is_best_effort_event. by rewrite He. }
  assert (Hgen : forall st1 ev, trace st1 = trace st ++ ev -> fs st1 = fs st ->
      Forall (fun e => is_best_effort_event e = true) ev ->
      exists evs r,
        match generate_distribution env d st1 with
        | (st', Ok _) => print (success_message d) st'
        | (st', Raise e) => (st', Raise e)
        end = (St (fs st) (trace st ++ evs), r) /\
        Forall (fun e => is_best_effort_event e = true) evs).
  { intros st1 ev Htr Hfs Fev.
    destruct (generate_distribution_eq env d st1) as (ev2 & F2 & ->).
    assert (F2' : Forall (fun e => is_best_effort_event e = true) ev2).
    { eapply Forall_impl; [done|]. intros e He. unfold is_best_effort_event. by rewrite He. }
    rewrite Htr, Hfs. unfold print, emit. 
    destruct (build_failure env d) as [e|]; [destruct (isinstance_Exception e)|];
      cbn [fs trace]; rewrite <- ?app_assoc; eexists _, _; (split; [reflexivity|]);
      repeat (apply Forall_app; split); try done; by repeat constructor. }
  destruct (upgrade_failure env) as [e|]; [destruct (isinstance_ImportError e)|].
  - eapply Hgen; [done..|]. apply Forall_app; split; [done|by repeat constructor].
  - by eexists _, _.
  - by eapply Hgen.
Qed.

Lemma run_materialize env d toml lt rp fs0 :
  exists evs,
    Forall (fun e => is_best_effort_event e = true) evs /\
    fs (fst (run env d toml lt rp fs0)) = fs (fst (materialize env d toml lt rp (St fs0 []))) /\
    trace (fst (run env d toml lt rp fs0)) =
      trace (fst (materialize env d toml lt rp (St fs0 []))) ++ evs /\
    (forall e, snd (materialize env d toml lt rp (St fs0 [])) = Raise e ->
       evs = [] /\ snd (run env d toml lt rp fs0) = Raise e).
Proof.
  unfold run. rewrite create_package_split.
  destruct (materialize env d toml lt rp (St fs0 [])) as [st1 [[]|e]]; cbn [fst snd].
  - destruct (best_effort_frame env d st1) as (evs & r & -> & F).
    exists evs. by repeat split.
  - exists []. rewrite app_nil_r. split; [apply Forall_nil_2|].
    split; [done|]. split; [done|]. by intros ? [= ->].
Qed.

Ltac in_list :=
  repeat first [ apply list_elem_of_here | apply list_elem_of_further ].

Ltac paths_distinct d :=
  pose proof (manifest_ne_license d);
  pose proof (manifest_ne_readme d);
  pose proof (license_ne_readme d).

Ltac destruct_innermost x :=
  lazymatch x with
  | context [match ?y with _ => _ end] => destruct_innermost y
  | _ => destruct x eqn:?
  end.

Ltac case_innermost :=
  match goal with
  | |- context [match ?x with _ => _ end] => destruct_innermost x
  end.

Ltac run_files :=
  unfold materialize, manifest_and_license, bind;
  rewrite ?write_manifest_eq;
  repeat first
    [ progress cbn [fst snd fs trace]
    | rewrite write_license_eq
    | rewrite write_readme_eq
    | progress unfold copyfile
    | match goal with
      | H : ?x = _ |- context [match ?x with _ => _ end] => rewrite H
      | H : ?x = _ |- context [if ?x then _ else _] => rewrite H
      end
    | case_innermost ].

(** ** Manifest *)

(** Claim C7.  Whenever the manifest can be opened for writing, the file
    [pyproject.toml] of the project directory holds exactly the supplied
    manifest text when the run is over, whatever the license and README
    arguments are and however the later steps end. *)
Theorem manifest_verbatim env d toml lt rp fs0 :
  can_open_w env (manifest_file d) = true ->
  fs (fst (run env d toml lt rp fs0)) !! manifest_file d = Some toml.
Proof.
  intros Hm. destruct (run_materialize env d toml lt rp fs0) as (evs & _ & -> & _).
  paths_distinct d.
  run_files; by simplify_map_eq.
Qed.

Lemma manifest_verbatim_witness :
  fs (fst (run env_ok "proj" "[project]" (Some "bsd") None ∅)) !! "proj/pyproject.toml"
  = Some "[project]".
Proof. exact (manifest_verbatim env_ok "proj" "[project]" (Some "bsd") None ∅ eq_refl). Defined.


Module PyStrFacts.
Import PyStr.

Lemma split_head c s : exists ps, split c s = before c s :: ps.
Proof.
  induction s as [|x s [ps IH]]; cbn [split before]; [by eauto|].
  destruct (Ascii.eqb x c); [by eauto|]. rewrite IH. cbn. by eauto.
Qed.

Lemma split_no_sep c s : contains c s = false -> split c s = [s].
Proof.
  induction s as [|x s IH]; cbn [split contains]; [done|].
  intros [H1 H2]%orb_false_elim. rewrite H1, (IH H2). done.
Qed.

Lemma before_no_sep c s : contains c s = false -> before c s = s.
Proof.
  induction s as [|x s IH]; cbn [before contains]; [done|].
  intros [H1 H2]%orb_false_elim. by rewrite H1, (IH H2).
Qed.

Lemma split_key_value c key value :
  contains c key = false ->
  split c (key +:+ String c value) = key :: split c value.
Proof.
  induction key as [|x key IH]; cbn [contains].
  - intros _. change ("" +:+ String c value) with (String c value).
    cbn [split]. by rewrite Ascii.eqb_refl.
  - intros [H1 H2]%orb_false_elim. rewrite append_cons. cbn [split].
    by rewrite H1, (IH H2).
Qed.

Lemma splitlines_nil s : splitlines s = [] -> s = "".
Proof.
  destruct s as [|c s]; [done|]. cbn [splitlines].
  destruct (is_linebreak c).
  - destruct s as [|x s]; [done|]. by destruct (Ascii.eqb c CR && Ascii.eqb x LF).
  - by destruct (splitlines s).
Qed.

End PyStrFacts.


(** ** What the first two blocks leave behind when they succeed *)

Lemma manifest_and_license_ok env d toml lt st :
  snd (manifest_and_license env d toml lt st) = Ok tt ->
  let st1 := fst (manifest_and_license env d toml lt st) in
  can_open_w env (manifest_file d) = true /\
  ((falsy lt /\
    trace st1 = trace st ++ [EOpenW (manifest_file d); EWrite (manifest_file d) toml;
                             EClose (manifest_file d)] /\
    fs st1 = <[manifest_file d := toml]> (fs st)) \/
   (exists k url r,
      lt = Some k /\ k <> "" /\
      LICENSE_TEMPLATES !! PyStr.lower k = Some url /\
      http_get env url = Ok r /\ status_code r = 200%Z /\
      can_open_w env (license_file d) = true /\
      trace st1 = trace st ++ [EOpenW (manifest_file d); EWrite (manifest_file d) toml;
                               EClose (manifest_file d); EHttpGet url;
                               EOpenW (license_file d); EWrite (license_file d) (text r);
                               EClose (license_file d)] /\
      fs st1 = <[license_file d := text r]> (<[manifest_file d := toml]> (fs st)))).
Proof.
  unfold falsy. run_files; cbn [fst snd fs trace]; try discriminate; intros _;
    (split; [done|]); simplify_eq; cbv zeta; cbn [fst snd fs trace];
    rewrite <- ?app_assoc; cbn [app].
  all: first [ by left; eauto
             | right; eexists _, _, _; repeat split; try done; by apply Z.eqb_eq ].
Qed.

(** ** License fetch *)

(** Claim C4.  For a license key found in the table (after lower-casing), in
    a project directory whose manifest can be written, a response to the
    license fetch whose status is not 200 makes [create_package] raise the
    fetch-failed [ValueError].  The run then consists of the manifest write
    and the request only: no [LICENSE] file is opened or written, and the
    path holds what it held before the run. *)
Theorem license_fetch_failure env d toml k url resp rp fs0 :
  can_open_w env (manifest_file d) = true ->
  k <> "" ->
  LICENSE_TEMPLATES !! PyStr.lower k = Some url ->
  http_get env url = Ok resp ->
  status_code resp <> 200%Z ->
  snd (run env d toml (Some k) rp fs0) =
    Raise (Exn ValueError ("Failed to fetch license template from " +:+ url)) /\
  trace (fst (run env d toml (Some k) rp fs0)) =
    [EOpenW (manifest_file d); EWrite (manifest_file d) toml;
     EClose (manifest_file d); EHttpGet url] /\
  (license_file d ∉ created (trace (fst (run env d toml (Some k) rp fs0)))) /\
  fs (fst (run env d toml (Some k) rp fs0)) !! license_file d = fs0 !! license_file d.
Proof.
  intros Hm Hk Hurl Hget Hst.
  apply Z.eqb_neq in Hst.
  destruct (run_materialize env d toml (Some k) rp fs0) as (evs & _ & -> & -> & Hraise).
  paths_distinct d.
  assert (Hmat : materialize env d toml (Some k) rp (St fs0 []) =
    (St (<[manifest_file d := toml]> fs0)
        [EOpenW (manifest_file d); EWrite (manifest_file d) toml;
         EClose (manifest_file d); EHttpGet url],
     Raise (Exn ValueError ("Failed to fetch license template from " +:+ url)))).
  { destruct k as [|c k]; [done|]. by run_files. }
  destruct (Hraise _ (f_equal snd Hmat)) as [-> ->].
  rewrite Hmat. cbn [fst snd fs trace created omap]. rewrite app_nil_r.
  split; [done|]. split; [done|]. split.
  - intros [E|E]%elem_of_cons; [congruence|by apply elem_of_nil in E].
  - by simplify_map_eq.
Qed.

Lemma license_fetch_failure_witness :
  snd (run env_http_404 "proj" "name = demo" (Some "MIT") None ∅) =
    Raise (Exn ValueError
      "Failed to fetch license template from https://raw.githubusercontent.com/OpenSourceInitiative/licenses/master/MIT") /\
  fs (fst (run env_http_404 "proj" "name = demo" (Some "MIT") None ∅)) !! "proj/LICENSE" = None.
Proof.
  pose proof (license_fetch_failure env_http_404 "proj" "name = demo" "MIT"
    "https://raw.githubusercontent.com/OpenSourceInitiative/licenses/master/MIT"
    (Response 404 "Not Found") None ∅
    eq_refl ltac:(discriminate) eq_refl eq_refl ltac:(discriminate)) as (H1 & _ & _ & H2).
  split; [exact H1 | exact H2].
Defined.

(** ** README *)

(** Claim C10.  With no README source path, when the manifest text is empty
    or its first line has no [=], and the steps in front of the README step
    succeed and [README.md] can be opened, [create_package] ends with an
    [IndexError] that nothing catches.  The error comes after the manifest was
    written, and after the license was written when one was requested: the
    trace is that of the first two steps followed by the opening and closing
    of [README.md]. *)
Theorem readme_synthesis_index_error env d toml lt rp fs0 :
  falsy rp ->
  (toml = "" \/
   exists line rest, PyStr.splitlines toml = line :: rest /\
                     PyStr.contains "=" line = false) ->
  snd (manifest_and_license env d toml lt (St fs0 [])) = Ok tt ->
  can_open_w env (readme_file d) = true ->
  snd (run env d toml lt rp fs0) = Raise (Exn IndexError "list index out of range") /\
  trace (fst (run env d toml lt rp fs0)) =
    trace (fst (manifest_and_license env d toml lt (St fs0 []))) ++
    [EOpenW (readme_file d); EClose (readme_file d)] /\
  EWrite (manifest_file d) toml ∈ trace (fst (manifest_and_license env d toml lt (St fs0 []))) /\
  fs (fst (run env d toml lt rp fs0)) !! manifest_file d = Some toml /\
  (forall k, lt = Some k -> k <> "" ->
     exists license_text,
       EWrite (license_file d) license_text
         ∈ trace (fst (manifest_and_license env d toml lt (St fs0 []))) /\
       fs (fst (run env d toml lt rp fs0)) !! license_file d = Some license_text).
Proof.
  intros Hrp Htoml Hok Hr.
  destruct (run_materialize env d toml lt rp fs0) as (evs & _ & -> & -> & Hraise).
  pose proof (manifest_and_license_ok env d toml lt (St fs0 []) Hok) as [Hm Hshape].
  paths_distinct d.
  assert (Hmat : materialize env d toml lt rp (St fs0 []) =
    (St (<[readme_file d := ""]> (fs (fst (manifest_and_license env d toml lt (St fs0 [])))))
        (trace (fst (manifest_and_license env d toml lt (St fs0 []))) ++
         [EOpenW (readme_file d); EClose (readme_file d)]),
     Raise (Exn IndexError "list index out of range"))).
  { unfold materialize, bind.
    destruct (manifest_and_license env d toml lt (St fs0 [])) as [st1 r1].
    cbn [snd] in Hok. subst r1. cbn [fst]. rewrite write_readme_eq, Hr.
    assert (Hsyn : match PyStr.splitlines toml with
                   | [] => True
                   | line :: _ => PyStr.split "=" line = [line]
                   end).
    { destruct Htoml as [->|(line & rest & -> & Hc)]; [done|].
      by apply PyStrFacts.split_no_sep. }
    destruct Hrp as [->| ->];
      (destruct (PyStr.splitlines toml) as [|line rest]; [done|by rewrite Hsyn]). }
  destruct (Hraise _ (f_equal snd Hmat)) as [-> ->].
  rewrite Hmat. cbn [fst snd fs trace]. rewrite app_nil_r.
  split; [done|]. split; [done|].
  destruct Hshape as [(Hlt & -> & ->)|(k & url & r & -> & Hk & Hurl & Hget & Hst & Hl & -> & ->)].
  - split; [in_list|]. split; [by simplify_map_eq|].
    intros k -> Hk. by destruct Hlt as [|[= ->]].
  - split; [in_list|]. split; [by simplify_map_eq|].
    intros k' [= <-] _. exists (text r). split; [in_list|by simplify_map_eq].
Qed.

Lemma readme_synthesis_index_error_witness :
  snd (run env_ok "proj" "[build-system]" (Some "mit") None ∅) =
    Raise (Exn IndexError "list index out of range") /\
  fs (fst (run env_ok "proj" "[build-system]" (Some "mit") None ∅)) !! "proj/pyproject.toml"
    = Some "[build-system]".
Proof.
  pose proof (readme_synthesis_index_error env_ok "proj" "[build-system]" (Some "mit") None ∅
    (or_introl eq_refl)
    (or_intror (ex_intro _ "[build-system]" (ex_intro _ [] (conj eq_refl eq_refl))))
    eq_refl eq_refl) as (H1 & _ & _ & H2 & _).
  split; [exact H1 | exact H2].
Defined.

(** What the synthesis block does once it is reached on a first line with an
    [=] sign: the file receives "# " and the trimmed text between the first
    [=] and the next one. *)
Lemma write_readme_title env d toml rp st line rest key value :
  falsy rp ->
  PyStr.splitlines toml = line :: rest ->
  line = key +:+ String "=" value ->
  PyStr.contains "=" key = false ->
  can_open_w env (readme_file d) = true ->
  write_readme env d toml rp st =
  (St (<[readme_file d := "# " +:+ PyStr.strip (before "=" value)]> (fs st))
      (trace st ++ [EOpenW (readme_file d);
                    EWrite (readme_file d) ("# " +:+ PyStr.strip (before "=" value));
                    EClose (readme_file d)]), Ok tt).
Proof.
  intros Hrp Hlines -> Hkey Hr.
  rewrite write_readme_eq, Hr, Hlines, (PyStrFacts.split_key_value _ _ _ Hkey).
  destruct (PyStrFacts.split_head "=" value) as [ps ->].
  by destruct Hrp as [->| ->].
Qed.

(** Claim C2, as the code has it.  With no README source path and a first
    manifest line [key=value] (the key being the text in front of the first
    [=]), once the steps in front of the README step succeed and [README.md]
    can be opened, the file holds "# " followed by the trimmed part of the
    value that precedes its next [=].  When the value has no [=] of its own,
    that is "# " followed by the trimmed value. *)
Theorem readme_synthesized_title env d toml lt rp fs0 line rest key value :
  falsy rp ->
  PyStr.splitlines toml = line :: rest ->
  line = key +:+ String "=" value ->
  PyStr.contains "=" key = false ->
  snd (manifest_and_license env d toml lt (St fs0 [])) = Ok tt ->
  can_open_w env (readme_file d) = true ->
  fs (fst (run env d toml lt rp fs0)) !! readme_file d =
    Some ("# " +:+ PyStr.strip (before "=" value)) /\
  (PyStr.contains "=" value = false ->
   fs (fst (run env d toml lt rp fs0)) !! readme_file d =
     Some ("# " +:+ PyStr.strip value)).
Proof.
  intros Hrp Hlines Hline Hkey Hok Hr.
  assert (Hfs : fs (fst (run env d toml lt rp fs0)) !! readme_file d =
                Some ("# " +:+ PyStr.strip (before "=" value))).
  { destruct (run_materialize env d toml lt rp fs0) as (evs & _ & -> & _).
    unfold materialize, bind.
    destruct (manifest_and_license env d toml lt (St fs0 [])) as [st1 r1].
    cbn [snd] in Hok. subst r1.
    rewrite (write_readme_title env d toml rp st1 line rest key value) by done.
    cbn [fst fs]. by rewrite lookup_insert_eq. }
  split; [done|]. intros Hvalue. by rewrite Hfs, PyStrFacts.before_no_sep.
Qed.

Lemma readme_synthesized_title_witness :
  fs (fst (run env_ok "proj" "name = demo" None None ∅)) !! "proj/README.md"
  = Some "# demo".
Proof.
  exact (proj1 (readme_synthesized_title env_ok "proj" "name = demo" None None ∅
    "name = demo" [] "name " " demo"
    (or_introl eq_refl) eq_refl eq_refl eq_refl eq_refl eq_refl)).
Defined.

(** Claim C2, as stated, fails on a value that contains [=]: the first line
    [name = a=b] has the value [a=b], and the README receives "# a". *)
Lemma readme_value_cut_at_second_equals :
  PyStr.splitlines "name = a=b" = ["name = a=b"] /\
  "name = a=b" = "name " +:+ String "=" " a=b" /\
  PyStr.contains "=" "name " = false /\
  snd (run env_ok "proj" "name = a=b" None None ∅) = Ok tt /\
  fs (fst (run env_ok "proj" "name = a=b" None None ∅)) !! readme_file "proj"
    = Some "# a" /\
  "# a" <> "# " +:+ PyStr.strip " a=b".
Proof. repeat split; first [ by vm_compute | discriminate ]. Qed.




(** The copy reproduces a source outside the project byte for byte. *)
Example readme_copy_sample :
  fs (fst (run env_ok "proj" "name = demo" None (Some "docs/README.md")
             {["docs/README.md" := "hello"]})) !! "proj/README.md" = Some "hello".
Proof. vm_compute. reflexivity. Qed.

(** ** The license table *)

Lemma http_gets_app tr1 tr2 : http_gets (tr1 ++ tr2) = http_gets tr1 ++ http_gets tr2.
Proof. apply omap_app. Qed.

Lemma created_app tr1 tr2 : created (tr1 ++ tr2) = created tr1 ++ created tr2.
Proof. apply omap_app. Qed.

Lemma best_effort_no_http evs :
  Forall (fun e => is_best_effort_event e = true) evs -> http_gets evs = [].
Proof. induction 1 as [|e evs He _ IH]; [done|]. by destruct e. Qed.

Lemma best_effort_no_file evs :
  Forall (fun e => is_best_effort_event e = true) evs ->
  Forall (fun e => is_file_event e = false) evs.
Proof. intros F. eapply Forall_impl; [exact F|]. by intros []. Qed.

Lemma best_effort_none_created evs :
  Forall (fun e => is_best_effort_event e = true) evs -> created evs = [].
Proof. induction 1 as [|e evs He _ IH]; [done|]. by destruct e. Qed.

Lemma supported_keys_lookup key :
  key ∈ supported_keys ->
  PyStr.lower key = key /\ is_Some (LICENSE_TEMPLATES !! key).
Proof.
  unfold supported_keys. rewrite !elem_of_cons, elem_of_nil.
  intros [->|[->|[->|[]]]]; by vm_compute; eauto.
Qed.

Lemma lookup_supported_keys key :
  is_Some (LICENSE_TEMPLATES !! key) -> key ∈ supported_keys.
Proof.
  unfold LICENSE_TEMPLATES. intros [url H]. revert H.
  rewrite !lookup_insert_Some, lookup_empty.
  intros [[<- _]|[_ [[<- _]|[_ [[<- _]|[_ ?]]]]]]; [in_list..|done].
Qed.

(** Claim C1.  In a project directory whose manifest can be written, a
    non-empty license key that equals one of the three supported keys up to
    letter case makes the run issue exactly one HTTP GET, to the URL that the
    table holds for that key.  Any other non-empty key makes the run raise the
    invalid-license [ValueError] with no request issued at all. *)
Theorem license_url_selection env d toml k rp fs0 :
  can_open_w env (manifest_file d) = true ->
  k <> "" ->
  (forall key, key ∈ supported_keys -> equal_nocase k key ->
     exists url, LICENSE_TEMPLATES !! key = Some url /\
                 http_gets (trace (fst (run env d toml (Some k) rp fs0))) = [url]) /\
  ((forall key, key ∈ supported_keys -> ~ equal_nocase k key) ->
     http_gets (trace (fst (run env d toml (Some k) rp fs0))) = [] /\
     snd (run env d toml (Some k) rp fs0) =
       Raise (Exn ValueError ("Invalid license type: " +:+ k))).
Proof.
  intros Hm Hk.
  destruct (run_materialize env d toml (Some k) rp fs0) as (evs & Fevs & _ & -> & Hraise).
  rewrite http_gets_app, (best_effort_no_http evs Fevs), app_nil_r.
  destruct k as [|c k]; [done|]. split.
  - intros key Hkey Heq. destruct (supported_keys_lookup key Hkey) as [Hlow [url Hurl]].
    exists url. split; [done|].
    unfold equal_nocase in Heq. rewrite Hlow in Heq.
    rewrite <- Heq in Hurl. clear Hraise.
    run_files; simplify_eq; cbn [fst snd fs trace]; by rewrite ?http_gets_app.
  - intros Hnone.
    assert (Hurl : LICENSE_TEMPLATES !! PyStr.lower (String c k) = None).
    { apply eq_None_not_Some. intros Hsome%lookup_supported_keys.
      apply (Hnone _ Hsome). unfold equal_nocase.
      by destruct (supported_keys_lookup _ Hsome) as [-> _]. }
    assert (Hmat : materialize env d toml (Some (String c k)) rp (St fs0 []) =
      (St (<[manifest_file d := toml]> fs0)
          [EOpenW (manifest_file d); EWrite (manifest_file d) toml;
           EClose (manifest_file d)],
       Raise (Exn ValueError ("Invalid license type: " +:+ String c k)))).
    { by run_files. }
    destruct (Hraise _ (f_equal snd Hmat)) as [_ ->]. by rewrite Hmat.
Qed.

Lemma license_url_selection_witness :
  http_gets (trace (fst (run env_ok "proj" "name = demo" (Some "Apache-2.0") None ∅))) =
    ["https://raw.githubusercontent.com/apache/licenses/master/LICENSE-2.0"] /\
  snd (run env_ok "proj" "name = demo" (Some "bsd") None ∅) =
    Raise (Exn ValueError "Invalid license type: bsd").
Proof.
  split.
  - destruct (proj1 (license_url_selection env_ok "proj" "name = demo" "Apache-2.0" None ∅
      eq_refl ltac:(discriminate)) "apache-2.0" ltac:(in_list) eq_refl) as (url & Hurl & Hget).
    injection Hurl as <-. exact Hget.
  - refine (proj2 (proj2 (license_url_selection env_ok "proj" "name = demo" "bsd" None ∅
      eq_refl ltac:(discriminate)) _)).
    unfold supported_keys. intros key.
    rewrite !elem_of_cons, elem_of_nil.
    intros [->|[->|[->|[]]]]; discriminate.
Defined.

(** ** Entry point *)

(** A text without CR is read as it is. *)
Lemma universal_newlines_plain s :
  PyStr.contains PyStr.CR s = false -> universal_newlines s = s.
Proof.
  induction s as [|c s IH]; [done|]. cbn [PyStr.contains universal_newlines].
  intros [Hc Hs]%orb_false_elim. by rewrite Hc, (IH Hs).
Qed.

(** The text read has no CR left. *)
Lemma universal_newlines_no_cr s :
  PyStr.contains PyStr.CR (universal_newlines s) = false.
Proof.
  assert (H : forall n s, String.length s <= n ->
            PyStr.contains PyStr.CR (universal_newlines s) = false).
  { clear s. induction n as [|n IH]; intros [|c s] Hlen; cbn [String.length] in Hlen;
      try done; [lia|].
    cbn [universal_newlines]. destruct (Ascii.eqb c PyStr.CR) eqn:Hc.
    - destruct s as [|x s]; [done|]. cbn [String.length] in Hlen.
      destruct (Ascii.eqb x PyStr.LF); cbn [PyStr.contains];
        (rewrite IH; [done|cbn [String.length]; lia]).
    - cbn [PyStr.contains]. rewrite Hc. apply IH. lia. }
  by apply (H (String.length s)).
Qed.

(** Claim C3.  Whatever the command line is, the parsed [--license] and
    [--readme] values never reach [create_package]: replacing them by any
    others leaves the run of [main] unchanged.  When the [--toml] argument
    resolves (it names no file, or a file that can be read), the one and only
    event of the run is the call of [create_package] with two positional
    arguments, the project directory and the resolved manifest text; the
    call lacks the two other required arguments and ends in a [TypeError],
    with no file written.  When the argument names a file that cannot be
    read, [main] raises the read error and makes no call at all. *)
Theorem main_forwards_two_arguments env rd args fs0 :
  (forall license readme,
     main env rd {| args_project_dir := args_project_dir args;
                    args_toml := args_toml args;
                    args_license := license;
                    args_readme := readme |} (St fs0 []) =
     main env rd args (St fs0 [])) /\
  (forall text,
     resolved_manifest fs0 (args_toml args) text ->
     (forall content, fs0 !! args_toml args = Some content ->
        read_failure rd (args_toml args) content = None) ->
     main env rd args (St fs0 []) =
     (St fs0 [ECall "create_package" [Some (args_project_dir args); Some text]],
      Raise (Exn TypeError
        "create_package() missing 2 required positional arguments: 'license_type' and 'readme_path'"))) /\
  (forall content e,
     fs0 !! args_toml args = Some content ->
     read_failure rd (args_toml args) content = Some e ->
     main env rd args (St fs0 []) = (St fs0 [], Raise e)) /\
  (forall callee posargs,
     ECall callee posargs ∈ trace (fst (main env rd args (St fs0 []))) ->
     callee = "create_package" /\
     exists text, posargs = [Some (args_project_dir args); Some text] /\
                  resolved_manifest fs0 (args_toml args) text).
Proof.
  assert (Hfile : forall content, fs0 !! args_toml args = Some content ->
    main env rd args (St fs0 []) =
    match read_failure rd (args_toml args) content with
    | Some e => (St fs0 [], Raise e)
    | None =>
        (St fs0 [ECall "create_package"
                   [Some (args_project_dir args); Some (universal_newlines content)]],
         Raise (Exn TypeError
           "create_package() missing 2 required positional arguments: 'license_type' and 'readme_path'"))
    end).
  { intros content Hc.
    unfold main, isfile, read_text, call_create_package, bind, emit, raise, ret.
    cbn [fs trace]. rewrite Hc.
    rewrite bool_decide_eq_true_2 by eauto.
    cbn [fs trace]. rewrite Hc.
    by destruct (read_failure rd (args_toml args) content). }
  assert (Hlit : fs0 !! args_toml args = None ->
    main env rd args (St fs0 []) =
    (St fs0 [ECall "create_package" [Some (args_project_dir args); Some (args_toml args)]],
     Raise (Exn TypeError
       "create_package() missing 2 required positional arguments: 'license_type' and 'readme_path'"))).
  { intros Hn.
    unfold main, isfile, read_text, call_create_package, bind, emit, raise, ret.
    cbn [fs trace]. rewrite Hn.
    rewrite bool_decide_eq_false_2; [done|]. by intros [? [=]]. }
  split; [|split; [|split]].
  - intros license readme. reflexivity.
  - intros text Hres Hread. destruct Hres as [Hn|content Hc].
    + by apply Hlit.
    + by rewrite (Hfile content Hc), (Hread content Hc).
  - intros content e Hc He. by rewrite (Hfile content Hc), He.
  - intros callee posargs.
    destruct (fs0 !! args_toml args) as [content|] eqn:Hc.
    + rewrite (Hfile content eq_refl).
      destruct (read_failure rd (args_toml args) content) as [e|]; cbn [fst trace].
      * by intros ?%elem_of_nil.
      * intros [= -> ->]%list_elem_of_singleton. split; [done|].
        eexists. split; [reflexivity|]. by apply resolved_file.
    + rewrite (Hlit eq_refl). cbn [fst trace].
      intros [= -> ->]%list_elem_of_singleton. split; [done|].
      eexists. split; [reflexivity|]. by apply resolved_literal.
Qed.

Lemma main_forwards_two_arguments_witness :
  main env_ok reader_ok
       {| args_project_dir := "proj"; args_toml := "conf/pyproject.toml";
          args_license := Some "mit"; args_readme := Some "docs/README.md" |}
       (St {["conf/pyproject.toml" :=
               "name = demo" +:+ String PyStr.CR (String PyStr.LF "version = 1")]} []) =
  (St {["conf/pyproject.toml" :=
          "name = demo" +:+ String PyStr.CR (String PyStr.LF "version = 1")]}
      [ECall "create_package"
         [Some "proj"; Some ("name = demo" +:+ String PyStr.LF "version = 1")]],
   Raise (Exn TypeError
     "create_package() missing 2 required positional arguments: 'license_type' and 'readme_path'")).
Proof.
  apply (proj1 (proj2 (main_forwards_two_arguments env_ok reader_ok
    {| args_project_dir := "proj"; args_toml := "conf/pyproject.toml";
       args_license := Some "mit"; args_readme := Some "docs/README.md" |}
    {["conf/pyproject.toml" :=
        "name = demo" +:+ String PyStr.CR (String PyStr.LF "version = 1")]}))).
  - change (resolved_manifest
      {["conf/pyproject.toml" :=
          "name = demo" +:+ String PyStr.CR (String PyStr.LF "version = 1")]}
      "conf/pyproject.toml"
      (universal_newlines
         ("name = demo" +:+ String PyStr.CR (String PyStr.LF "version = 1")))).
    apply resolved_file. vm_compute. reflexivity.
  - intros content _. reflexivity.
Defined.

Example main_literal_manifest :
  main env_ok reader_ok
       {| args_project_dir := "proj"; args_toml := "name = demo";
          args_license := Some "mit"; args_readme := Some "docs/README.md" |}
       (St {["docs/README.md" := "hello"]} []) =
  (St {["docs/README.md" := "hello"]}
      [ECall "create_package" [Some "proj"; Some "name = demo"]],
   Raise (Exn TypeError
     "create_package() missing 2 required positional arguments: 'license_type' and 'readme_path'")).
Proof. reflexivity. Qed.

Example main_unreadable_manifest :
  main env_ok reader_denied
       {| args_project_dir := "proj"; args_toml := "conf/pyproject.toml";
          args_license := None; args_readme := None |}
       (St {["conf/pyproject.toml" := "name = demo"]} []) =
  (St {["conf/pyproject.toml" := "name = demo"]} [],
   Raise (Exn OSError "conf/pyproject.toml")).
Proof. reflexivity. Qed.

(** ** Best-effort steps *)

(** The two toolchain blocks and the final message, when every failure is
    one that the handlers catch. *)
Lemma best_effort_swallows env d st :
  (forall e, upgrade_failure env = Some e -> isinstance_ImportError e = true) ->
  (forall e, build_failure env d = Some e -> isinstance_Exception e = true) ->
  exists evs,
    best_effort env d st =
      (St (fs st) (trace st ++ evs ++ [EPrint (success_message d)]), Ok tt) /\
    (is_Some (upgrade_failure env) -> EPrint pip_warning ∈ evs) /\
    (forall e, build_failure env d = Some e -> EPrint (build_error_message e) ∈ evs).
Proof.
  intros Hup Hbuild. unfold best_effort, bind. fold (success_message d).
  destruct (upgrade_toolchain_eq env st) as (ev1 & _ & ->).
  assert (Hgen : forall st1 ev,
    trace st1 = trace st ++ ev -> fs st1 = fs st ->
    exists ev2,
      match generate_distribution env d st1 with
      | (st', Ok _) => print (success_message d) st'
      | (st', Raise e) => (st', Raise e)
      end = (St (fs st) (trace st ++ (ev ++ ev2) ++ [EPrint (success_message d)]), Ok tt) /\
      (forall e, build_failure env d = Some e -> EPrint (build_error_message e) ∈ ev2)).
  { intros st1 ev Htr Hfs.
    destruct (generate_distribution_eq env d st1) as (ev2 & _ & ->).
    rewrite Htr, Hfs. unfold print, emit.
    destruct (build_failure env d) as [e|] eqn:Hb.
    - rewrite (Hbuild e eq_refl). cbn [fs trace].
      exists (ev2 ++ [EPrint (build_error_message e)]). rewrite <- !app_assoc.
      split; [done|]. intros e' [= <-]. apply elem_of_app. right. in_list.
    - cbn [fs trace]. exists ev2. rewrite <- !app_assoc. by split. }
  destruct (upgrade_failure env) as [e|] eqn:Hu.
  - rewrite (Hup e eq_refl).
    destruct (Hgen (St (fs st) (trace st ++ ev1 ++ [EPrint pip_warning]))
                (ev1 ++ [EPrint pip_warning]) eq_refl eq_refl) as (ev2 & -> & Hmsg).
    exists ((ev1 ++ [EPrint pip_warning]) ++ ev2). split; [done|]. split.
    + intros _. apply elem_of_app. left. apply elem_of_app. right. in_list.
    + intros e' He'. apply elem_of_app. right. by apply Hmsg.
  - destruct (Hgen (St (fs st) (trace st ++ ev1)) ev1 eq_refl eq_refl) as (ev2 & -> & Hmsg).
    exists (ev1 ++ ev2). split; [done|]. split.
    + by intros [? [=]].
    + intros e' He'. apply elem_of_app. right. by apply Hmsg.
Qed.

(** Claim C5, as the code has it.  On every input on which the three
    file-writing steps succeed, provided the toolchain upgrade fails only with
    an [ImportError] and the build step fails only with an exception derived
    from [Exception], nothing propagates out of [create_package]: the run
    returns normally, its last output is the success message, the files are
    as the file-writing steps left them, a failed upgrade has printed the
    warning and a failed build has printed its error message. *)
Theorem best_effort_failures_swallowed env d toml lt rp fs0 :
  snd (materialize env d toml lt rp (St fs0 [])) = Ok tt ->
  (forall e, upgrade_failure env = Some e -> isinstance_ImportError e = true) ->
  (forall e, build_failure env d = Some e -> isinstance_Exception e = true) ->
  snd (run env d toml lt rp fs0) = Ok tt /\
  last (trace (fst (run env d toml lt rp fs0))) = Some (EPrint (success_message d)) /\
  fs (fst (run env d toml lt rp fs0)) = fs (fst (materialize env d toml lt rp (St fs0 []))) /\
  (is_Some (upgrade_failure env) ->
   EPrint pip_warning ∈ trace (fst (run env d toml lt rp fs0))) /\
  (forall e, build_failure env d = Some e ->
   EPrint (build_error_message e) ∈ trace (fst (run env d toml lt rp fs0))).
Proof.
  intros Hok Hup Hbuild. unfold run. rewrite create_package_split.
  destruct (materialize env d toml lt rp (St fs0 [])) as [st1 r1].
  cbn [fst snd] in *. subst r1.
  destruct (best_effort_swallows env d st1 Hup Hbuild) as (evs & -> & Hw & Hb).
  cbn [fst snd fs trace]. split; [done|]. split.
  - by rewrite !app_assoc, last_snoc.
  - split; [done|]. split.
    + intros Hf. apply elem_of_app. right. apply elem_of_app. left. by apply Hw.
    + intros e He. apply elem_of_app. right. apply elem_of_app. left. by apply Hb.
Qed.

Lemma best_effort_failures_swallowed_witness :
  snd (run env_no_toolchain "proj" "name = demo" (Some "mit") None ∅) = Ok tt /\
  printed (trace (fst (run env_no_toolchain "proj" "name = demo" (Some "mit") None ∅))) =
    [pip_warning;
     "Error generating distribution files: list index out of range";
     "Package created successfully in: proj"].
Proof.
  split; [|by vm_compute].
  refine (proj1 (best_effort_failures_swallowed env_no_toolchain "proj" "name = demo"
    (Some "mit") None ∅ eq_refl _ _)).
  - by intros e [= <-].
  - by intros e [= <-].
Defined.

(** An upgrade failure that is not an [ImportError] reaches the caller. *)
Lemma upgrade_failure_propagates env d toml lt rp fs0 e :
  snd (materialize env d toml lt rp (St fs0 [])) = Ok tt ->
  upgrade_failure env = Some e ->
  isinstance_ImportError e = false ->
  snd (run env d toml lt rp fs0) = Raise e.
Proof.
  intros Hok Hup He. unfold run. rewrite create_package_split.
  destruct (materialize env d toml lt rp (St fs0 [])) as [st1 r1].
  cbn [snd] in Hok. subst r1. unfold best_effort, bind.
  destruct (upgrade_toolchain_eq env st1) as (evs & _ & ->).
  by rewrite Hup, He.
Qed.

(** Claim C5, as stated, fails in both best-effort steps.  An exception of
    [pip.main] that is not an [ImportError] leaves [create_package], and so
    does a [SystemExit] of [setup]: in each run the three files were written,
    the exception reaches the caller and the success message is not printed. *)
Lemma best_effort_failure_propagates :
  (snd (materialize env_pip_raises "proj" "name = demo" None None (St ∅ [])) = Ok tt /\
   upgrade_failure env_pip_raises = Some (Exn (OtherException "RuntimeError") "pip failed") /\
   snd (run env_pip_raises "proj" "name = demo" None None ∅) =
     Raise (Exn (OtherException "RuntimeError") "pip failed") /\
   printed (trace (fst (run env_pip_raises "proj" "name = demo" None None ∅))) = []) /\
  (snd (materialize env_setup_exits "proj" "name = demo" None None (St ∅ [])) = Ok tt /\
   build_failure env_setup_exits "proj" = Some (Exn SystemExit "error: no commands supplied") /\
   snd (run env_setup_exits "proj" "name = demo" None None ∅) =
     Raise (Exn SystemExit "error: no commands supplied") /\
   printed (trace (fst (run env_setup_exits "proj" "name = demo" None None ∅))) = []).
Proof. repeat split; by vm_compute. Qed.

(** ** Order of operations *)

(** The file-writing steps call no toolchain. *)
Lemma materialize_no_toolchain env d toml lt rp fs0 :
  Forall (fun e => is_toolchain_event e = false)
    (trace (fst (materialize env d toml lt rp (St fs0 [])))).
Proof.
  run_files; simplify_eq; cbn [fst snd fs trace app];
    repeat (apply Forall_app; split); by repeat constructor.
Qed.

(** A README step that succeeds leaves a README and touches nothing else. *)
Lemma write_readme_ok env d toml rp st :
  snd (write_readme env d toml rp st) = Ok tt ->
  is_Some (fs (fst (write_readme env d toml rp st)) !! readme_file d) /\
  (forall p, p <> readme_file d ->
     fs (fst (write_readme env d toml rp st)) !! p = fs st !! p).
Proof.
  rewrite write_readme_eq. unfold copyfile.
  repeat case_innermost; cbn [fst snd fs]; try discriminate; intros _;
    (split; [rewrite lookup_insert_eq; by eauto|]);
    intros p Hp; by rewrite lookup_insert_ne.
Qed.

(** What is on disk when the file-writing steps have succeeded. *)
Lemma materialize_ok_files env d toml lt rp fs0 :
  snd (materialize env d toml lt rp (St fs0 [])) = Ok tt ->
  fs (fst (materialize env d toml lt rp (St fs0 []))) !! manifest_file d = Some toml /\
  (forall k, lt = Some k -> k <> "" ->
     exists url r, LICENSE_TEMPLATES !! PyStr.lower k = Some url /\
                   http_get env url = Ok r /\
                   fs (fst (materialize env d toml lt rp (St fs0 []))) !! license_file d
                     = Some (text r)) /\
  is_Some (fs (fst (materialize env d toml lt rp (St fs0 []))) !! readme_file d).
Proof.
  paths_distinct d. unfold materialize, bind.
  pose proof (manifest_and_license_ok env d toml lt (St fs0 [])) as Hshape.
  destruct (manifest_and_license env d toml lt (St fs0 [])) as [st1 [[]|e]];
    [|discriminate].
  cbn [fst snd] in Hshape. destruct (Hshape eq_refl) as [_ Hcases]. clear Hshape.
  intros [Hreadme Hother]%write_readme_ok.
  rewrite !Hother by done. split; [|split; [|done]].
  - destruct Hcases as [(_ & _ & ->)|(k & url & r & _ & _ & _ & _ & _ & _ & _ & ->)];
      by simplify_map_eq.
  - intros k -> Hk.
    destruct Hcases as [([|[= ->]] & _)|(k' & url & r & [= <-] & _ & Hurl & Hget & _ & _ & _ & ->)];
      [done..|].
    exists url, r. by simplify_map_eq.
Qed.

(** The files are created in the order manifest, license, README. *)
Lemma materialize_creation_order env d toml lt rp fs0 :
  created (trace (fst (materialize env d toml lt rp (St fs0 []))))
    `sublist_of` [manifest_file d; license_file d; readme_file d].
Proof.
  run_files; simplify_eq; cbn [fst snd fs trace app created omap];
    repeat first [ apply sublist_nil | apply sublist_skip | apply sublist_cons ].
Qed.

(** Claim C6.  In every run the files are created in the order manifest,
    license, README, and each file event (opening, writing, closing or
    copying a file) comes before each call into the toolchain.  So whenever a
    toolchain call was started at all, failed or not, the three file-writing
    steps had succeeded: the manifest holds the manifest text, the license
    file holds the fetched text when a license was requested, and the README
    exists. *)
Theorem files_before_toolchain env d toml lt rp fs0 :
  created (trace (fst (run env d toml lt rp fs0)))
    `sublist_of` [manifest_file d; license_file d; readme_file d] /\
  (forall i j e1 e2,
     trace (fst (run env d toml lt rp fs0)) !! i = Some e1 ->
     trace (fst (run env d toml lt rp fs0)) !! j = Some e2 ->
     is_file_event e1 = true -> is_toolchain_event e2 = true -> i < j) /\
  ((exists e, e ∈ trace (fst (run env d toml lt rp fs0)) /\ is_toolchain_event e = true) ->
   fs (fst (run env d toml lt rp fs0)) !! manifest_file d = Some toml /\
   (forall k, lt = Some k -> k <> "" ->
      exists url r, LICENSE_TEMPLATES !! PyStr.lower k = Some url /\
                    http_get env url = Ok r /\
                    fs (fst (run env d toml lt rp fs0)) !! license_file d = Some (text r)) /\
   is_Some (fs (fst (run env d toml lt rp fs0)) !! readme_file d)).
Proof.
  destruct (run_materialize env d toml lt rp fs0) as (evs & Fevs & -> & -> & Hraise).
  pose proof (materialize_no_toolchain env d toml lt rp fs0) as Fmat.
  pose proof (best_effort_no_file evs Fevs) as Fnofile.
  split; [|split].
  - rewrite created_app, (best_effort_none_created evs Fevs), app_nil_r.
    apply materialize_creation_order.
  - intros i j e1 e2 Hi Hj He1 He2.
    destruct (decide (i < length (trace (fst (materialize env d toml lt rp (St fs0 []))))))
      as [Hlt|Hge].
    + destruct (decide (j < length (trace (fst (materialize env d toml lt rp (St fs0 []))))))
        as [Hlt'|Hge']; [|lia].
      rewrite lookup_app_l in Hj by done.
      rewrite Forall_lookup in Fmat. specialize (Fmat _ _ Hj). congruence.
    + rewrite lookup_app_r in Hi by lia.
      rewrite Forall_lookup in Fnofile. specialize (Fnofile _ _ Hi). congruence.
  - intros (e & [He|He]%elem_of_app & Htool).
    + rewrite Forall_forall in Fmat. specialize (Fmat _ He). congruence.
    + apply materialize_ok_files.
      destruct (snd (materialize env d toml lt rp (St fs0 []))) as [[]|err] eqn:Hsnd; [done|].
      destruct (Hraise _ eq_refl) as [-> _]. by apply elem_of_nil in He.
Qed.

(** ** Files produced by one run *)



Ltac not_in_list :=
  rewrite ?not_elem_of_cons; repeat split; try apply not_elem_of_nil; congruence.



(** * Further properties of [create_package] *)

Ltac eval_trace :=
  cbn [fst snd fs trace app http_gets created printed omap list_omap].

(** ** Failures of the file-writing steps *)

(** When the manifest cannot be opened for writing, the run stops there with
    an [OSError]: nothing is written, requested or called. *)
Theorem manifest_open_failure_aborts env d toml lt rp fs0 :
  can_open_w env (manifest_file d) = false ->
  run env d toml lt rp fs0 = (St fs0 [], Raise (Exn OSError (manifest_file d))).
Proof.
  intros Hm. unfold run. rewrite create_package_split.
  unfold materialize, manifest_and_license, bind. by rewrite write_manifest_eq, Hm.
Qed.

Lemma manifest_open_failure_aborts_witness :
  run env_read_only "proj" "name = demo" (Some "mit") None ∅ =
  (St ∅ [], Raise (Exn OSError "proj/pyproject.toml")).
Proof.
  exact (manifest_open_failure_aborts env_read_only "proj" "name = demo" (Some "mit") None ∅
    eq_refl).
Defined.

(** Without a license key (none, or the empty string) no request is issued
    and the license file is neither created nor changed, however the run
    ends. *)
Theorem no_license_no_request env d toml lt rp fs0 :
  falsy lt ->
  http_gets (trace (fst (run env d toml lt rp fs0))) = [] /\
  (license_file d ∉ created (trace (fst (run env d toml lt rp fs0)))) /\
  fs (fst (run env d toml lt rp fs0)) !! license_file d = fs0 !! license_file d.
Proof.
  intros Hlt.
  destruct (run_materialize env d toml lt rp fs0) as (evs & Fevs & -> & -> & _).
  rewrite http_gets_app, created_app, (best_effort_no_http evs Fevs),
    (best_effort_none_created evs Fevs), !app_nil_r.
  paths_distinct d.
  destruct Hlt as [->| ->]; run_files; simplify_eq; eval_trace;
    (split; [done|]); (split; [not_in_list|by simplify_map_eq]).
Qed.

Lemma no_license_no_request_witness :
  http_gets (trace (fst (run env_ok "proj" "name = demo" (Some "") None ∅))) = [] /\
  fs (fst (run env_ok "proj" "name = demo" (Some "") None ∅)) !! "proj/LICENSE" = None.
Proof.
  pose proof (no_license_no_request env_ok "proj" "name = demo" (Some "") None ∅
    (or_intror eq_refl)) as (H1 & _ & H2).
  split; [exact H1 | exact H2].
Defined.

(** A license that is fetched with status 200 is written as it came: once
    the manifest and the license file can be opened, [LICENSE] holds exactly
    the text of the response when the run is over, however the later steps
    end. *)
Theorem license_written_verbatim env d toml k url resp rp fs0 :
  can_open_w env (manifest_file d) = true ->
  k <> "" ->
  LICENSE_TEMPLATES !! PyStr.lower k = Some url ->
  http_get env url = Ok resp ->
  status_code resp = 200%Z ->
  can_open_w env (license_file d) = true ->
  fs (fst (run env d toml (Some k) rp fs0)) !! license_file d = Some (text resp) /\
  EWrite (license_file d) (text resp) ∈ trace (fst (run env d toml (Some k) rp fs0)).
Proof.
  intros Hm Hk Hurl Hget Hst Hl. apply Z.eqb_eq in Hst.
  destruct (run_materialize env d toml (Some k) rp fs0) as (evs & _ & -> & -> & _).
  paths_distinct d. destruct k as [|c k]; [done|].
  split; [|apply elem_of_app; left];
    run_files; simplify_eq; eval_trace; first [ by simplify_map_eq | in_list ].
Qed.

Lemma license_written_verbatim_witness :
  fs (fst (run env_ok "proj" "[project]" (Some "GPL-3.0") None ∅)) !! "proj/LICENSE"
  = Some "MIT License".
Proof.
  exact (proj1 (license_written_verbatim env_ok "proj" "[project]" "GPL-3.0"
    "https://raw.githubusercontent.com/tldr-pages/tldr/master/licenses/gpl-3.0.md"
    (Response 200 "MIT License") None ∅
    eq_refl ltac:(discriminate) eq_refl eq_refl eq_refl eq_refl)).
Defined.

(** An exception raised by the request itself reaches the caller unchanged.
    The manifest is written by then; the license file is not touched and
    nothing else happens. *)
Theorem license_request_error_propagates env d toml k url e rp fs0 :
  can_open_w env (manifest_file d) = true ->
  k <> "" ->
  LICENSE_TEMPLATES !! PyStr.lower k = Some url ->
  http_get env url = Raise e ->
  snd (run env d toml (Some k) rp fs0) = Raise e /\
  trace (fst (run env d toml (Some k) rp fs0)) =
    [EOpenW (manifest_file d); EWrite (manifest_file d) toml;
     EClose (manifest_file d); EHttpGet url] /\
  fs (fst (run env d toml (Some k) rp fs0)) !! manifest_file d = Some toml /\
  fs (fst (run env d toml (Some k) rp fs0)) !! license_file d = fs0 !! license_file d.
Proof.
  intros Hm Hk Hurl Hget.
  destruct (run_materialize env d toml (Some k) rp fs0) as (evs & _ & -> & -> & Hraise).
  paths_distinct d.
  assert (Hmat : materialize env d toml (Some k) rp (St fs0 []) =
    (St (<[manifest_file d := toml]> fs0)
        [EOpenW (manifest_file d); EWrite (manifest_file d) toml;
         EClose (manifest_file d); EHttpGet url], Raise e)).
  { destruct k as [|c k]; [done|]. by run_files. }
  destruct (Hraise _ (f_equal snd Hmat)) as [-> ->].
  rewrite Hmat. cbn [fst snd fs trace]. rewrite app_nil_r.
  repeat split; by simplify_map_eq.
Qed.

Lemma license_request_error_propagates_witness :
  snd (run env_offline "proj" "name = demo" (Some "mit") None ∅) =
    Raise (Exn (OtherException "ConnectionError") "network unreachable") /\
  fs (fst (run env_offline "proj" "name = demo" (Some "mit") None ∅)) !! "proj/LICENSE" = None.
Proof.
  pose proof (license_request_error_propagates env_offline "proj" "name = demo" "mit"
    "https://raw.githubusercontent.com/OpenSourceInitiative/licenses/master/MIT"
    (Exn (OtherException "ConnectionError") "network unreachable") None ∅
    eq_refl ltac:(discriminate) eq_refl eq_refl) as (H1 & _ & _ & H2).
  split; [exact H1 | exact H2].
Defined.

(** The first two blocks change no file but the manifest and the license. *)
Lemma manifest_and_license_frame env d toml lt st p :
  p <> manifest_file d -> p <> license_file d ->
  fs (fst (manifest_and_license env d toml lt st)) !! p = fs st !! p.
Proof.
  intros H1 H2. unfold manifest_and_license, bind. rewrite write_manifest_eq.
  repeat first
    [ progress cbn [fst snd fs trace]
    | rewrite write_license_eq
    | case_innermost ]; by simplify_map_eq.
Qed.

Lemma readme_file_nonempty d : readme_file d <> "".
Proof.
  destruct (path_join_rel d "x" eq_refl) as [p Hp].
  unfold readme_file. rewrite Hp by reflexivity.
  destruct p; [|rewrite append_cons]; discriminate.
Qed.

(** Naming the [README.md] of the project itself as the README source makes
    the copy fail with an [OSError] once the first two steps have succeeded:
    source and target are one path.  The run ends there, with the file system
    as the first two steps left it and without a toolchain call. *)
Theorem readme_copy_onto_itself_fails env d toml lt fs0 :
  snd (manifest_and_license env d toml lt (St fs0 [])) = Ok tt ->
  (exists msg, snd (run env d toml lt (Some (readme_file d)) fs0) =
                 Raise (Exn OSError msg)) /\
  fst (run env d toml lt (Some (readme_file d)) fs0) =
    fst (manifest_and_license env d toml lt (St fs0 [])).
Proof.
  intros Hok.
  destruct (run_materialize env d toml lt (Some (readme_file d)) fs0)
    as (evs & _ & Hfs & Htr & Hraise).
  pose proof (readme_file_nonempty d) as Hne.
  revert Hfs Htr Hraise. unfold materialize, bind.
  destruct (manifest_and_license env d toml lt (St fs0 [])) as [st1 r1].
  cbn [fst snd] in *. subst r1.
  rewrite write_readme_eq. destruct (readme_file d) as [|c src] eqn:E; [done|].
  unfold copyfile. rewrite String.eqb_refl. cbn [fst snd]. intros Hfs Htr Hraise.
  destruct (Hraise _ eq_refl) as [-> Hres]. rewrite app_nil_r in Htr.
  split; [by eauto|].
  destruct (fst (run env d toml lt (Some (String c src)) fs0)), st1.
  cbn [fs trace] in *. by subst.
Qed.

Lemma readme_copy_onto_itself_fails_witness :
  (exists msg, snd (run env_ok "proj" "name = demo" None (Some (readme_file "proj"))
                      {["proj/README.md" := "old"]}) = Raise (Exn OSError msg)) /\
  fst (run env_ok "proj" "name = demo" None (Some (readme_file "proj"))
         {["proj/README.md" := "old"]}) =
    fst (manifest_and_license env_ok "proj" "name = demo" None
           (St {["proj/README.md" := "old"]} [])).
Proof.
  exact (readme_copy_onto_itself_fails env_ok "proj" "name = demo" None
    {["proj/README.md" := "old"]} eq_refl).
Defined.

(** When the README synthesis fails on the manifest text, the file was
    already opened for writing: [README.md] is left empty, whatever it held
    before the run. *)
Theorem readme_left_empty_on_index_error env d toml lt rp fs0 :
  falsy rp ->
  (toml = "" \/
   exists line rest, PyStr.splitlines toml = line :: rest /\
                     PyStr.contains "=" line = false) ->
  snd (manifest_and_license env d toml lt (St fs0 [])) = Ok tt ->
  can_open_w env (readme_file d) = true ->
  fs (fst (run env d toml lt rp fs0)) !! readme_file d = Some "".
Proof.
  intros Hrp Htoml Hok Hr.
  destruct (run_materialize env d toml lt rp fs0) as (evs & _ & -> & _).
  unfold materialize, bind.
  destruct (manifest_and_license env d toml lt (St fs0 [])) as [st1 r1].
  cbn [snd] in Hok. subst r1. rewrite write_readme_eq, Hr.
  assert (Hsyn : match PyStr.splitlines toml with
                 | [] => True
                 | line :: _ => PyStr.split "=" line = [line]
                 end).
  { destruct Htoml as [->|(line & rest & -> & Hc)]; [done|].
    by apply PyStrFacts.split_no_sep. }
  destruct Hrp as [->| ->];
    (destruct (PyStr.splitlines toml) as [|line rest]; [|rewrite Hsyn]);
    cbn [fst fs]; by rewrite lookup_insert_eq.
Qed.

Lemma readme_left_empty_on_index_error_witness :
  fs (fst (run env_ok "proj" "[project]" None None {["proj/README.md" := "# Old notes"]}))
    !! "proj/README.md" = Some "".
Proof.
  exact (readme_left_empty_on_index_error env_ok "proj" "[project]" None None
    {["proj/README.md" := "# Old notes"]}
    (or_introl eq_refl)
    (or_intror (ex_intro _ "[project]" (ex_intro _ [] (conj eq_refl eq_refl))))
    eq_refl eq_refl).
Defined.

(** ** What a run never does *)

(** The manifest, the license file and the README of a project are three
    different paths, whatever the project directory is: no step of a run
    overwrites the file of another step. *)
Theorem project_files_distinct d :
  NoDup [manifest_file d; license_file d; readme_file d].
Proof.
  paths_distinct d.
  repeat (apply NoDup_cons; split; [not_in_list|]). apply NoDup_nil_2.
Qed.

(** The file operations of [create_package] itself (opening for writing,
    writing, closing, copying to) name no path but the manifest, the license
    file and the README of the project, as joined from the project
    directory.  What pip and setuptools write is theirs. *)
Theorem writes_only_project_paths env d toml lt rp fs0 e p :
  e ∈ trace (fst (run env d toml lt rp fs0)) ->
  target_path e = Some p ->
  p ∈ [manifest_file d; license_file d; readme_file d].
Proof.
  destruct (run_materialize env d toml lt rp fs0) as (evs & Fevs & _ & -> & _).
  intros [He|He]%elem_of_app Hp.
  - revert He.
    run_files; simplify_eq; eval_trace; intros He;
      repeat (apply elem_of_cons in He as [->|He]);
      try (by apply elem_of_nil in He);
      cbn [target_path] in Hp; simplify_eq; in_list.
  - rewrite Forall_forall in Fevs. specialize (Fevs e He). by destruct e.
Qed.

Lemma writes_only_project_paths_witness :
  "proj/README.md" ∈ [manifest_file "proj"; license_file "proj"; readme_file "proj"].
Proof.
  apply (writes_only_project_paths env_ok "proj" "name = demo" None
    (Some "docs/README.md") {["docs/README.md" := "hello"]}
    (ECopyFile "docs/README.md" "proj/README.md") "proj/README.md").
  - vm_compute. in_list.
  - reflexivity.
Defined.

(** A run issues at most one request, and only to a URL of the license
    table. *)
Theorem requests_only_to_table_urls env d toml lt rp fs0 :
  length (http_gets (trace (fst (run env d toml lt rp fs0)))) <= 1 /\
  (forall url, url ∈ http_gets (trace (fst (run env d toml lt rp fs0))) ->
     exists key, key ∈ supported_keys /\ LICENSE_TEMPLATES !! key = Some url).
Proof.
  destruct (run_materialize env d toml lt rp fs0) as (evs & Fevs & _ & -> & _).
  rewrite http_gets_app, (best_effort_no_http evs Fevs), app_nil_r.
  run_files; simplify_eq; eval_trace; (split; [cbn [length]; lia|]);
    intros url Hurl;
    repeat (apply elem_of_cons in Hurl as [->|Hurl]);
    try (by apply elem_of_nil in Hurl);
    (eexists; split; [apply lookup_supported_keys; by eauto|done]).
Qed.

(** ** Console output *)

Lemma printed_app tr1 tr2 : printed (tr1 ++ tr2) = printed tr1 ++ printed tr2.
Proof. apply omap_app. Qed.

Lemma toolchain_prints_nothing evs :
  Forall (fun e => is_toolchain_event e = true) evs -> printed evs = [].
Proof. induction 1 as [|e evs He _ IH]; [done|]. by destruct e. Qed.

Lemma materialize_prints_nothing env d toml lt rp fs0 :
  printed (trace (fst (materialize env d toml lt rp (St fs0 [])))) = [].
Proof. run_files; simplify_eq; by eval_trace. Qed.

Lemma success_message_not_error d e : success_message d <> build_error_message e.
Proof.
  intros H.
  apply (f_equal (fun s => match s with String c _ => Some c | EmptyString => None end)) in H.
  vm_compute in H. discriminate.
Qed.

Lemma success_message_not_warning d : success_message d <> pip_warning.
Proof.
  intros H.
  apply (f_equal (fun s => match s with String c _ => Some c | EmptyString => None end)) in H.
  vm_compute in H. discriminate.
Qed.

(** The output and the result of the two toolchain blocks and the final
    line, from any state. *)
Lemma best_effort_outcome env d st :
  printed (trace (fst (best_effort env d st))) = printed (trace st) ++ expected_output env d /\
  (snd (best_effort env d st) = Ok tt <-> success_message d ∈ expected_output env d).
Proof.
  pose proof (success_message_not_warning d) as Hw.
  assert (Hbuild : forall st1,
    printed (trace (fst (match generate_distribution env d st1 with
                         | (st', Ok _) => print (success_message d) st'
                         | (st', Raise e) => (st', Raise e)
                         end))) = printed (trace st1) ++ build_output env d /\
    (snd (match generate_distribution env d st1 with
          | (st', Ok _) => print (success_message d) st'
          | (st', Raise e) => (st', Raise e)
          end) = Ok tt <-> success_message d ∈ build_output env d)).
  { intros st1. destruct (generate_distribution_eq env d st1) as (ev2 & F2 & ->).
    unfold build_output, print, emit.
    destruct (build_failure env d) as [e|]; [destruct (isinstance_Exception e)|];
      cbn [fst snd fs trace]; rewrite ?printed_app, (toolchain_prints_nothing ev2 F2);
      cbn [printed omap list_omap app]; rewrite ?app_nil_r, <- ?app_assoc;
      (split; [done|]).
    - split; [intros _; in_list|done].
    - split; [done|]. by intros ?%elem_of_nil.
    - split; [intros _; in_list|done]. }
  unfold best_effort, bind. fold (success_message d).
  destruct (upgrade_toolchain_eq env st) as (ev1 & F1 & ->). unfold expected_output.
  destruct (upgrade_failure env) as [e|]; [destruct (isinstance_ImportError e)|].
  - destruct (Hbuild (St (fs st) (trace st ++ ev1 ++ [EPrint pip_warning]))) as [-> Hiff].
    cbn [trace]. rewrite !printed_app, (toolchain_prints_nothing ev1 F1).
    cbn [printed omap list_omap app]. split; [by rewrite <- app_assoc|].
    rewrite Hiff, elem_of_cons. split; [by right|]. by intros [?|?].
  - cbn [fst snd trace]. rewrite printed_app, (toolchain_prints_nothing ev1 F1), app_nil_r.
    split; [done|]. split; [done|]. by intros ?%elem_of_nil.
  - destruct (Hbuild (St (fs st) (trace st ++ ev1))) as [-> Hiff].
    cbn [trace]. rewrite printed_app, (toolchain_prints_nothing ev1 F1), app_nil_r.
    by split.
Qed.

(** The lines a run prints are determined by how the toolchain ends.  A run
    that fails in a file-writing step prints nothing.  Otherwise it prints
    the pip warning if the upgrade failed with an [ImportError], then the
    build error message if the build failed with an [Exception], then the
    success message; a failure that no handler catches ends the output where
    it occurs. *)
Theorem console_output env d toml lt rp fs0 :
  printed (trace (fst (run env d toml lt rp fs0))) =
  match snd (materialize env d toml lt rp (St fs0 [])) with
  | Ok _ => expected_output env d
  | Raise _ => []
  end.
Proof.
  pose proof (materialize_prints_nothing env d toml lt rp fs0) as Hmat.
  unfold run. rewrite create_package_split.
  destruct (materialize env d toml lt rp (St fs0 [])) as [st1 [[]|e]]; cbn [fst snd] in *;
    [|done].
  destruct (best_effort_outcome env d st1) as [-> _]. by rewrite Hmat.
Qed.

(** The success message is printed exactly when [create_package] returns
    normally. *)
Theorem success_printed_iff_returns env d toml lt rp fs0 :
  snd (run env d toml lt rp fs0) = Ok tt <->
  success_message d ∈ printed (trace (fst (run env d toml lt rp fs0))).
Proof.
  pose proof (materialize_prints_nothing env d toml lt rp fs0) as Hmat.
  unfold run. rewrite create_package_split.
  destruct (materialize env d toml lt rp (St fs0 [])) as [st1 [[]|e]]; cbn [fst snd] in *.
  - destruct (best_effort_outcome env d st1) as [-> ->]. by rewrite Hmat.
  - rewrite Hmat. split; [done|]. by intros ?%elem_of_nil.
Qed.

(** ** The toolchain blocks *)

Lemma best_effort_no_setup env d st n p :
  find_packages env d = Ok [] ->
  ESetup n p ∈ trace (fst (best_effort env d st)) -> ESetup n p ∈ trace st.
Proof.
  intros Hfind.
  unfold best_effort, upgrade_toolchain, generate_distribution, try_except, bind,
    print, emit, lift, index, raise, ret.
  repeat first [ progress cbn [fst snd fs trace] | case_innermost ]; simplify_eq;
    rewrite ?elem_of_app, ?elem_of_cons, ?elem_of_nil; intros Hin;
    repeat match goal with H : _ \/ _ |- _ => destruct H end;
    first [ assumption | discriminate | contradiction ].
Qed.

(** When package discovery finds nothing, [setup] is never called.  If the
    file-writing steps succeeded, the upgrade did not stop the run and the
    shell command returned, the missing first package shows up as the caught
    [IndexError]: its message is printed and the run still returns
    normally. *)
Theorem no_packages_no_setup env d toml lt rp fs0 :
  find_packages env d = Ok [] ->
  (forall n p, ESetup n p ∉ trace (fst (run env d toml lt rp fs0))) /\
  (snd (materialize env d toml lt rp (St fs0 [])) = Ok tt ->
   (forall e, upgrade_failure env = Some e -> isinstance_ImportError e = true) ->
   (exists z, os_system env build_cmd = Ok z) ->
   snd (run env d toml lt rp fs0) = Ok tt /\
   "Error generating distribution files: list index out of range"
     ∈ printed (trace (fst (run env d toml lt rp fs0)))).
Proof.
  intros Hfind. pose proof (materialize_no_toolchain env d toml lt rp fs0) as Fmat.
  unfold run. rewrite create_package_split.
  destruct (materialize env d toml lt rp (St fs0 [])) as [st1 r1]. cbn [fst snd] in *.
  split.
  - intros n p Hin.
    assert (Hst1 : ESetup n p ∈ trace st1).
    { destruct r1 as [[]|e]; [|done]. by apply (best_effort_no_setup env d st1 n p). }
    rewrite Forall_forall in Fmat. by specialize (Fmat _ Hst1).
  - intros -> Hup [z Hz].
    destruct (best_effort_outcome env d st1) as [-> ->].
    assert (Hout : expected_output env d =
      match upgrade_failure env with Some _ => [pip_warning] | None => [] end ++
      ["Error generating distribution files: list index out of range"; success_message d]).
    { unfold expected_output, build_output, build_failure. rewrite Hz, Hfind.
      destruct (upgrade_failure env) as [e|] eqn:Hu; [by rewrite (Hup e eq_refl)|done]. }
    rewrite Hout. split.
    + apply elem_of_app. right. in_list.
    + apply elem_of_app. right. apply elem_of_app. right. in_list.
Qed.

Lemma no_packages_no_setup_witness :
  snd (run env_no_toolchain "proj" "name = demo" None None ∅) = Ok tt.
Proof.
  refine (proj1 (proj2 (no_packages_no_setup env_no_toolchain "proj" "name = demo" None None ∅
    eq_refl) eq_refl _ (ex_intro _ 1%Z eq_refl))).
  by intros e [= <-].
Defined.

(** The exit codes of [pip.main] and of the shell command are never looked
    at: a run is the same, file for file and event for event, whatever the
    two calls return. *)
Theorem exit_codes_ignored env pip_code sys_code d toml lt rp fs0 :
  run (with_exit_codes env pip_code sys_code) d toml lt rp fs0 = run env d toml lt rp fs0.
Proof.
  unfold run. rewrite !create_package_split.
  change (materialize (with_exit_codes env pip_code sys_code) d toml lt rp (St fs0 []))
    with (materialize env d toml lt rp (St fs0 [])).
  destruct (materialize env d toml lt rp (St fs0 [])) as [st1 [[]|e]]; [|done].
  unfold best_effort, upgrade_toolchain, generate_distribution, try_except, bind,
    print, emit, lift, index, raise, ret.
  cbn [with_exit_codes import_pip pip_main os_system find_packages setup].
  destruct (import_pip env) as [[]|e0];
    destruct (pip_main env pip_args) as [z1|e1];
    destruct (os_system env build_cmd) as [z2|e2]; done.
Qed.

(** ** Letter case of the license key *)

Lemma lower_char_idempotent c : PyStr.lower_char (PyStr.lower_char c) = PyStr.lower_char c.
Proof. destruct c as [[] [] [] [] [] [] [] []]; reflexivity. Qed.

Lemma lower_idempotent s : PyStr.lower (PyStr.lower s) = PyStr.lower s.
Proof.
  induction s as [|c s IH]; [done|].
  cbn [PyStr.lower]. by rewrite lower_char_idempotent, IH.
Qed.

(** A key that resolves in the license table matters only through its
    lower-case form: the run with the key as typed and the run with the key
    in lower case are the same run, file for file and event for event. *)
Theorem license_key_case_irrelevant env d toml k rp fs0 :
  is_Some (LICENSE_TEMPLATES !! PyStr.lower k) ->
  run env d toml (Some k) rp fs0 = run env d toml (Some (PyStr.lower k)) rp fs0.
Proof.
  intros [url Hurl]. unfold run. rewrite !create_package_split.
  assert (Hmat : materialize env d toml (Some k) rp (St fs0 []) =
                 materialize env d toml (Some (PyStr.lower k)) rp (St fs0 [])).
  { unfold materialize, manifest_and_license, bind.
    destruct (write_manifest env d toml (St fs0 [])) as [st1 [[]|e]]; [|done].
    rewrite !write_license_eq. destruct k as [|c k]; [done|].
    cbn [PyStr.lower] in *.
    by rewrite lower_char_idempotent, lower_idempotent, Hurl. }
  by rewrite Hmat.
Qed.

Lemma license_key_case_irrelevant_witness :
  run env_ok "proj" "name = demo" (Some "MIT") None ∅ =
  run env_ok "proj" "name = demo" (Some "mit") None ∅.
Proof.
  exact (license_key_case_irrelevant env_ok "proj" "name = demo" "MIT" None ∅
    (ex_intro _ _ eq_refl)).
Defined.

(** ** Shape of the synthesized README *)

Lemma push_front_clean c pieces :
  PyStr.is_linebreak c = false ->
  Forall (fun l => has_linebreak l = false) pieces ->
  Forall (fun l => has_linebreak l = false) (PyStr.push_front c pieces).
Proof.
  intros Hc [|p ps Hp Hps]; cbn [PyStr.push_front].
  - repeat constructor. cbn [has_linebreak]. by rewrite Hc.
  - constructor; [|done]. cbn [has_linebreak]. by rewrite Hc, Hp.
Qed.

(** No line of [splitlines] contains a line boundary. *)
Lemma splitlines_clean s :
  Forall (fun l => has_linebreak l = false) (PyStr.splitlines s).
Proof.
  assert (H : forall n s, String.length s <= n ->
            Forall (fun l => has_linebreak l = false) (PyStr.splitlines s)).
  { clear s. induction n as [|n IH]; intros [|c s] Hlen; cbn [String.length] in Hlen;
      try (by constructor); [lia|].
    cbn [PyStr.splitlines]. destruct (PyStr.is_linebreak c) eqn:Hc.
    - destruct s as [|x s]; [by repeat constructor|].
      cbn [String.length] in Hlen.
      destruct (Ascii.eqb c PyStr.CR && Ascii.eqb x PyStr.LF);
        (constructor; [done|]); apply IH; cbn [String.length]; lia.
    - apply push_front_clean; [done|]. apply IH. lia. }
  by apply (H (String.length s)).
Qed.

(** The pieces of a text without line boundary have none either. *)
Lemma split_clean sep s :
  has_linebreak s = false ->
  Forall (fun l => has_linebreak l = false) (PyStr.split sep s).
Proof.
  induction s as [|c s IH]; cbn [PyStr.split has_linebreak]; [by repeat constructor|].
  intros [Hc Hs]%orb_false_elim. destruct (Ascii.eqb c sep).
  - constructor; [done|by apply IH].
  - apply push_front_clean; [done|by apply IH].
Qed.

Lemma lstrip_clean s : has_linebreak s = false -> has_linebreak (PyStr.lstrip s) = false.
Proof.
  induction s as [|c s IH]; cbn [PyStr.lstrip has_linebreak]; [done|].
  intros [Hc Hs]%orb_false_elim. destruct (PyStr.is_space c); [by apply IH|].
  cbn [has_linebreak]. by rewrite Hc, Hs.
Qed.

Lemma rstrip_clean s : has_linebreak s = false -> has_linebreak (PyStr.rstrip s) = false.
Proof.
  induction s as [|c s IH]; cbn [PyStr.rstrip has_linebreak]; [done|].
  intros [Hc Hs]%orb_false_elim. specialize (IH Hs).
  destruct (PyStr.rstrip s) as [|x r].
  - destruct (PyStr.is_space c); [done|]. cbn [has_linebreak]. by rewrite Hc.
  - cbn [has_linebreak] in *. by rewrite Hc, IH.
Qed.

Lemma readme_title_clean toml line rest head token pieces :
  PyStr.splitlines toml = line :: rest ->
  PyStr.split "=" line = head :: token :: pieces ->
  has_linebreak (PyStr.strip token) = false.
Proof.
  intros Hlines Hsplit. unfold PyStr.strip. apply lstrip_clean, rstrip_clean.
  pose proof (splitlines_clean toml) as Hl. rewrite Hlines in Hl.
  apply Forall_cons in Hl as [Hline _].
  pose proof (split_clean "=" line Hline) as Hp. rewrite Hsplit in Hp.
  apply Forall_cons in Hp as [_ Hp]. by apply Forall_cons in Hp as [Hp _].
Qed.

(** A synthesized README is one line.  Whatever is written to [README.md]
    when no README source is given is "# " followed by a title that contains
    no line boundary, so the file never ends in a newline and never spans
    several lines. *)
Theorem synthesized_readme_single_line env d toml lt rp fs0 content :
  falsy rp ->
  EWrite (readme_file d) content ∈ trace (fst (run env d toml lt rp fs0)) ->
  exists title, content = "# " +:+ title /\ has_linebreak title = false.
Proof.
  intros Hrp.
  destruct (run_materialize env d toml lt rp fs0) as (evs & Fevs & _ & -> & _).
  intros [Hin|Hin]%elem_of_app.
  - paths_distinct d. revert Hin.
    destruct Hrp as [->| ->]; run_files; simplify_eq; eval_trace; intros Hin;
      repeat (apply elem_of_cons in Hin as [Hin|Hin]; [try congruence|]);
      try (by apply elem_of_nil in Hin);
      simplify_eq; eexists; (split; [reflexivity|]);
      by eapply readme_title_clean.
  - rewrite Forall_forall in Fevs. by specialize (Fevs _ Hin).
Qed.

Lemma synthesized_readme_single_line_witness :
  exists title, "# demo" = "# " +:+ title /\ has_linebreak title = false.
Proof.
  apply (synthesized_readme_single_line env_ok "proj"
           ("name = demo" +:+ String PyStr.LF "version = 1") None None ∅ "# demo"
           (or_introl eq_refl)).
  vm_compute. in_list.
Defined.

(** ** Partial output and repeated runs *)

(** An unknown license key is found out only after the manifest is written:
    the run ends with the invalid-license [ValueError], and what it leaves
    behind is the manifest alone. *)
Theorem invalid_license_leaves_only_manifest env d toml k rp fs0 :
  can_open_w env (manifest_file d) = true ->
  k <> "" ->
  LICENSE_TEMPLATES !! PyStr.lower k = None ->
  run env d toml (Some k) rp fs0 =
  (St (<[manifest_file d := toml]> fs0)
      [EOpenW (manifest_file d); EWrite (manifest_file d) toml; EClose (manifest_file d)],
   Raise (Exn ValueError ("Invalid license type: " +:+ k))).
Proof.
  intros Hm Hk Hnone. unfold run. rewrite create_package_split.
  destruct k as [|c k]; [done|]. by run_files.
Qed.

Lemma invalid_license_leaves_only_manifest_witness :
  created (trace (fst (run env_ok "proj" "name = demo" (Some "BSD") (Some "notes.md") ∅)))
  = ["proj/pyproject.toml"].
Proof.
  rewrite (invalid_license_leaves_only_manifest env_ok "proj" "name = demo" "BSD"
    (Some "notes.md") ∅ eq_refl ltac:(discriminate) eq_refl).
  reflexivity.
Defined.

(** The first two blocks add a fixed set of files, whatever the state. *)
Lemma manifest_and_license_adds env d toml lt :
  exists (added : gmap string string) evs r,
    forall st, manifest_and_license env d toml lt st =
               (St (added ∪ fs st) (trace st ++ evs), r).
Proof.
  unfold manifest_and_license, bind.
  destruct (can_open_w env (manifest_file d)) eqn:Hm.
  - assert (Hlic : exists (added : gmap string string) evs r,
      forall st, write_license env d lt st = (St (added ∪ fs st) (trace st ++ evs), r)).
    { destruct lt as [[|c k]|];
        try (exists ∅, [], (Ok tt); intros st; rewrite write_license_eq;
             by rewrite (left_id_L ∅ (∪)), app_nil_r; destruct st).
      destruct (LICENSE_TEMPLATES !! PyStr.lower (String c k)) as [url|] eqn:Hurl;
        [destruct (http_get env url) as [r|e] eqn:Hget;
         [destruct (status_code r =? 200)%Z eqn:Hst;
          [destruct (can_open_w env (license_file d)) eqn:Hl|]|]|].
      - eexists {[license_file d := text r]}, _, _. intros st.
        rewrite write_license_eq, Hurl, Hget, Hst, Hl.
        by rewrite insert_union_singleton_l.
      - eexists ∅, _, _. intros st. rewrite write_license_eq, Hurl, Hget, Hst, Hl.
        by rewrite (left_id_L ∅ (∪)).
      - eexists ∅, _, _. intros st. rewrite write_license_eq, Hurl, Hget, Hst.
        by rewrite (left_id_L ∅ (∪)).
      - eexists ∅, _, _. intros st. rewrite write_license_eq, Hurl, Hget.
        by rewrite (left_id_L ∅ (∪)).
      - eexists ∅, [], _. intros st. rewrite write_license_eq, Hurl.
        rewrite (left_id_L ∅ (∪)), app_nil_r. by destruct st. }
    destruct Hlic as (added & evs & r & Hlic).
    eexists (added ∪ {[manifest_file d := toml]}), _, r. intros st.
    rewrite write_manifest_eq, Hm, Hlic. cbn [fs trace].
    by rewrite insert_union_singleton_l, (assoc_L (∪)), <- app_assoc.
  - eexists ∅, [], _. intros st. rewrite write_manifest_eq, Hm.
    rewrite (left_id_L ∅ (∪)), app_nil_r. by destruct st.
Qed.

(** So does the README synthesis. *)
Lemma write_readme_synthesis_adds env d toml rp :
  falsy rp ->
  exists (added : gmap string string) evs r,
    forall st, write_readme env d toml rp st =
               (St (added ∪ fs st) (trace st ++ evs), r).
Proof.
  intros Hrp.
  assert (Heq : forall st, write_readme env d toml rp st = write_readme env d toml None st).
  { intros st. rewrite !write_readme_eq. by destruct Hrp as [->| ->]. }
  destruct (can_open_w env (readme_file d)) eqn:Hr;
    [destruct (PyStr.splitlines toml) as [|line rest] eqn:Hlines;
     [|destruct (PyStr.split "=" line) as [|h [|token ps]] eqn:Hsplit]|].
  1-4: eexists {[readme_file d := _]}, _, _; intros st;
       rewrite Heq, write_readme_eq, Hr, Hlines, ?Hsplit;
       by rewrite insert_union_singleton_l.
  eexists ∅, [], _. intros st. rewrite Heq, write_readme_eq, Hr.
  rewrite (left_id_L ∅ (∪)), app_nil_r. by destruct st.
Qed.

Lemma materialize_rerun_fs env d toml lt rp fs0 :
  fs (fst (materialize env d toml lt rp
             (St (fs (fst (materialize env d toml lt rp (St fs0 [])))) []))) =
  fs (fst (materialize env d toml lt rp (St fs0 []))).
Proof.
  destruct (manifest_and_license_adds env d toml lt) as (U & evs & r & Hmal).
  unfold materialize, bind. rewrite !Hmal. cbn [fs trace].
  destruct r as [[]|e]; cbn [fst fs].
  2: { by rewrite (assoc_L (∪)), (idemp_L (∪)). }
  assert (Hsynth : falsy rp ->
    fs (fst (write_readme env d toml rp
               (St (U ∪ fs (fst (write_readme env d toml rp (St (U ∪ fs0) ([] ++ evs)))))
                   ([] ++ evs)))) =
    fs (fst (write_readme env d toml rp (St (U ∪ fs0) ([] ++ evs))))).
  { intros Hrp.
    destruct (write_readme_synthesis_adds env d toml rp Hrp) as (V & evs' & r' & Hsyn).
    rewrite !Hsyn. cbn [fst fs].
    apply map_eq. intros p. rewrite !lookup_union.
    by destruct (V !! p), (U !! p), (fs0 !! p). }
  destruct rp as [[|c src]|]; [apply Hsynth; by right| |apply Hsynth; by left].
  clear Hsynth. rewrite !write_readme_eq. unfold copyfile.
  destruct (String.eqb_spec (String c src) (readme_file d)) as [E|E].
  { cbn [fst fs]. by rewrite (assoc_L (∪)), (idemp_L (∪)). }
  cbn [fs]. destruct ((U ∪ fs0) !! String c src) as [b|] eqn:Hsrc.
  - destruct (can_open_w env (readme_file d)) eqn:Hr; cbn [fst fs].
    + assert (Hsrc' : (U ∪ <[readme_file d:=b]> (U ∪ fs0)) !! String c src = Some b).
      { revert Hsrc. rewrite !lookup_union, lookup_insert_ne, lookup_union by done.
        by destruct (U !! String c src), (fs0 !! String c src). }
      rewrite Hsrc'. cbn [fst fs].
      apply map_eq. intros p. destruct (decide (p = readme_file d)) as [->|Hp].
      * by rewrite !lookup_insert_eq.
      * rewrite !lookup_insert_ne, !lookup_union, lookup_insert_ne, lookup_union by done.
        by destruct (U !! p), (fs0 !! p).
    + by rewrite (assoc_L (∪)), (idemp_L (∪)), Hsrc.
  - cbn [fst fs]. by rewrite (assoc_L (∪)), (idemp_L (∪)), Hsrc.
Qed.

(** Running [create_package] a second time with the same arguments, in the
    same environment, on the files left by the first run changes no file:
    the file system after the second run is the one after the first. *)
Theorem rerun_leaves_files_unchanged env d toml lt rp fs0 :
  fs (fst (run env d toml lt rp (fs (fst (run env d toml lt rp fs0))))) =
  fs (fst (run env d toml lt rp fs0)).
Proof.
  destruct (run_materialize env d toml lt rp fs0) as (evs & _ & -> & _).
  destruct (run_materialize env d toml lt rp
              (fs (fst (materialize env d toml lt rp (St fs0 []))))) as (evs' & _ & -> & _).
  apply materialize_rerun_fs.
Qed.
